(** * Taxonomic distance of reactions: a shallow embedding of
      [taxon.py] and [dist_pwy_rxn.py], and the properties of the
      design document checked against it.

    Python values are embedded dynamically ([pyval]), exceptions as an
    error monad ([result]), dictionaries as [gmap], sets as [gset], the
    NCBI directory (Bio.Entrez) as two functions the development is
    parametric in, and the disk as a map from file names to decoded JSON
    documents.  Logging, printing and [time.sleep] have no influence on any
    returned value and are left out. *)

From Stdlib Require Import ZArith String Ascii List Lia.
From stdpp Require Import base option list gmap sets strings fin_maps.

Open Scope Z_scope.
Open Scope string_scope.
Open Scope list_scope.

(** ** Python values and exceptions *)

Module Py.

(** The values that flow through the two modules: [None], integers,
    strings and lists.  (No float, bool, tuple or dict value ever
    reaches a [Taxon] attribute through the code of the repository.) *)
#[warnings="-register-all"]
Inductive pyval : Type :=
| PyNone
| PyInt (n : Z)
| PyStr (s : string)
| PyList (l : list pyval).

(** Exceptions of Python and its libraries that the two modules catch,
    raise through an operation, or can meet.  [HTTPError] and [URLError] are
    those of [urllib.error]: the first is the one the constructor names, the
    second stands for a transport failure that is not an HTTP status
    (connection refused, timeout). *)
Inductive lib_exn : Type :=
| TypeError
| IndexError
| KeyError
| AttributeError
| ValueError
| HTTPError
| URLError
| FileNotFoundError.

(** Exceptions seen by a caller: the two classes [taxon.py] defines, and
    the others. *)
Inductive exn : Type :=
| TaxonNotFound
| TaxonInvalidInput
| Builtin (e : lib_exn).

(** A computation either returns or raises. *)
Inductive result (A : Type) : Type :=
| Ok (a : A)
| Raise (e : exn).
Arguments Ok {A} a.
Arguments Raise {A} e.

(** A call into a library: it returns, or raises one of its exceptions. *)
Definition call {A : Type} (r : lib_exn + A) : result A :=
  match r with
  | inl e => Raise (Builtin e)
  | inr a => Ok a
  end.

Definition bind {A B : Type} (m : result A) (k : A -> result B) : result B :=
  match m with
  | Ok a => k a
  | Raise e => Raise e
  end.

(** [try: m except e in caught: h e]. *)
Definition try_except {A : Type} (m : result A) (caught : exn -> bool)
           (h : exn -> result A) : result A :=
  match m with
  | Ok a => Ok a
  | Raise e => if caught e then h e else Raise e
  end.

(** Python's [==] on values: structural, and [False] across types. *)
Fixpoint py_eq (a b : pyval) {struct a} : bool :=
  match a, b with
  | PyNone, PyNone => true
  | PyInt x, PyInt y => Z.eqb x y
  | PyStr s, PyStr t => String.eqb s t
  | PyList xs, PyList ys =>
      (fix all2 (xs ys : list pyval) {struct xs} : bool :=
         match xs, ys with
         | [], [] => true
         | x :: xs', y :: ys' => py_eq x y && all2 xs' ys'
         | _, _ => false
         end) xs ys
  | _, _ => false
  end.

(** Truth value of an object, as tested by [if x] and [not x]. *)
Definition truthy (v : pyval) : bool :=
  match v with
  | PyNone => false
  | PyInt n => negb (Z.eqb n 0)
  | PyStr s => negb (String.eqb s EmptyString)
  | PyList l => match l with [] => false | _ => true end
  end.

(** [len(v)]. *)
Definition len (v : pyval) : result Z :=
  match v with
  | PyList l => Ok (Z.of_nat (List.length l))
  | PyStr s => Ok (Z.of_nat (String.length s))
  | _ => Raise (Builtin TypeError)
  end.

(** [v[i]] for a non-negative index. *)
Definition getitem (v : pyval) (i : nat) : result pyval :=
  match v with
  | PyList l => match nth_error l i with
                | Some x => Ok x
                | None => Raise (Builtin IndexError)
                end
  | PyStr s => match String.get i s with
               | Some c => Ok (PyStr (String c EmptyString))
               | None => Raise (Builtin IndexError)
               end
  | _ => Raise (Builtin TypeError)
  end.

(** [min(l)] on a list of integers: the first smallest element;
    [ValueError] on the empty list. *)
Definition py_min (l : list Z) : result Z :=
  match l with
  | [] => Raise (Builtin ValueError)
  | x :: r => Ok (fold_left (fun m y => if Z.ltb y m then y else m) r x)
  end.

(** [s.lstrip(chars)], [s.rstrip(chars)] and [s.strip(chars)]: drop the
    leading, trailing, or both kinds of characters that occur in
    [chars]. *)
Definition in_chars (chars : string) (c : ascii) : bool :=
  existsb (Ascii.eqb c) (list_ascii_of_string chars).

Fixpoint lstrip_list (chars : string) (l : list ascii) : list ascii :=
  match l with
  | [] => []
  | c :: l' => if in_chars chars c then lstrip_list chars l' else l
  end.

Definition lstrip (chars s : string) : string :=
  string_of_list_ascii (lstrip_list chars (list_ascii_of_string s)).

Definition rstrip (chars s : string) : string :=
  string_of_list_ascii
    (rev (lstrip_list chars (rev (list_ascii_of_string s)))).

Definition strip (chars s : string) : string :=
  rstrip chars (lstrip chars s).

(** [s.split('; ')]. *)
Fixpoint split_semicolon_space_aux (s : string) (cur : list ascii)
  : list string :=
  match s with
  | EmptyString => [string_of_list_ascii (rev cur)]
  | String ";" (String " " rest) =>
      string_of_list_ascii (rev cur) :: split_semicolon_space_aux rest []
  | String c rest => split_semicolon_space_aux rest (c :: cur)
  end.

Definition split_semicolon_space (s : string) : list string :=
  split_semicolon_space_aux s [].

End Py.
Import Py.

Notation "x <- m ;; k" := (Py.bind m (fun x => k))
  (at level 100, m at next level, k at level 200, right associativity).

(** ** The NCBI taxonomy directory (Bio.Entrez) *)

Module Entrez.

(** One parsed record of the taxonomy database, with the keys the
    constructor reads; a key may be missing. *)
Record entry : Type := {
  ScientificName : option pyval;
  Lineage : option string;
  ParentTaxId : option pyval;
  (** ['LineageEx']: a list of dictionaries, given by the value each has
      under ['TaxId'], if any. *)
  LineageEx : option (list (option pyval))
}.

(** The two calls made to the service.  [efetch_read id] is
    [Entrez.read(Entrez.efetch(db="taxonomy", id=id, rettype="xml"))]: the
    list of parsed records, or the exception the library raised.  [esearch_read term]
    is [Entrez.read(Entrez.esearch(db="taxonomy", term=term,
    rettype="xml"))], given by the value under ["IdList"], if any. *)
Record directory : Type := {
  efetch_read : pyval -> lib_exn + list entry;
  esearch_read : pyval -> lib_exn + option (list pyval)
}.

End Entrez.
Import Entrez.

(** ** taxon.py *)

(** An instance of [Taxon]: its attributes.  [dist_to_root] is only set
    by the branch of the constructor that queries the directory. *)
Record Taxon : Type := {
  taxid : pyval;
  scientific_name : pyval;
  lineage_taxa_name : pyval;
  lineage_taxa_id : pyval;
  parent_taxid : pyval;
  dist_to_root : option Z
}.

(** The local variables of [get_distance_between_two_taxa] when it reaches
    its last line. *)
Record distance_locals : Type := {
  common_tax_id : list pyval;
  up_distance : Z;
  down_distance : Z
}.

(** The two [while] loops of [get_distance_between_two_taxa] have the same
    body and differ in their bound; [remaining] is [bound - i], so that
    [remaining = 0] is the loop condition [i < bound] turned false, and
    returning before that is the [break]. *)
Fixpoint common_loop (remaining : nat) (xs ys : pyval) (i : nat)
         (common : list pyval) : result (list pyval) :=
  match remaining with
  | O => Ok common
  | S remaining' =>
      x <- getitem xs i ;;
      y <- getitem ys i ;;
      if py_eq x y
      then common_loop remaining' xs ys (S i) (common ++ [x])
      else Ok common
  end.

Definition distance_walk (self anothertaxon : Taxon) : result distance_locals :=
  n_self <- len (lineage_taxa_id self) ;;
  n_other <- len (lineage_taxa_id anothertaxon) ;;
  let bound := if Z.leb n_self n_other then n_self else n_other in
  common <- common_loop (Z.to_nat bound) (lineage_taxa_id self)
                        (lineage_taxa_id anothertaxon) 0 [] ;;
  let up := n_self - Z.of_nat (List.length common) in
  let down := if negb (Z.eqb up 0)
              then n_other - Z.of_nat (List.length common)
              else 0 in
  Ok {| common_tax_id := common; up_distance := up; down_distance := down |}.

Definition get_distance_between_two_taxa (self anothertaxon : Taxon)
           (penalty_price : Z) : result Z :=
  if py_eq (taxid anothertaxon) (PyInt 1)
  then len (lineage_taxa_id self)
  else
    st <- distance_walk self anothertaxon ;;
    Ok (up_distance st + down_distance st * penalty_price).

(** [[x['TaxId'] for x in entry['LineageEx']]]. *)
Fixpoint lineage_ex_taxids (l : list (option pyval)) : result (list pyval) :=
  match l with
  | [] => Ok []
  | Some x :: l' => r <- lineage_ex_taxids l' ;; Ok (x :: r)
  | None :: _ => Raise (Builtin KeyError)
  end.

Section WithDirectory.

Variable ncbi : directory.

Definition get_taxid_from_name (name : pyval) : result pyval :=
  record <- call (esearch_read ncbi name) ;;
  try_except
    (idlist <- match record with
               | Some l => Ok l
               | None => Raise (Builtin KeyError)
               end ;;
     match idlist with
     | x :: _ => Ok x
     | [] => Raise (Builtin IndexError)
     end)
    (fun e => match e with
            | Builtin TypeError | Builtin IndexError => true
            | _ => false
            end)
    (fun _ => Raise TaxonNotFound).

(** The condition of the first [if] of [Taxon.__init__]. *)
Definition all_info_given (a_taxid a_name a_lin_name a_lin_id a_parent : pyval)
  : bool :=
  truthy a_taxid && truthy a_name && truthy a_lin_name
  && truthy a_parent && truthy a_lin_id.

(** Its [else] branch: the object is built from the directory. *)
Definition init_from_directory (a_taxid a_name : pyval) : result Taxon :=
  self_taxid <-
    (if negb (truthy a_taxid) && negb (truthy a_name)
     then Raise TaxonInvalidInput
     else if negb (truthy a_taxid)
          then get_taxid_from_name a_name
          else Ok a_taxid) ;;
  e <- try_except
         (record <- call (efetch_read ncbi self_taxid) ;;
          match record with
          | e :: _ => Ok e
          | [] => Raise (Builtin IndexError)
          end)
         (fun e => match e with
                   | Builtin TypeError | Builtin IndexError
                   | Builtin HTTPError => true
                   | _ => false
                   end)
         (fun _ => Raise TaxonNotFound) ;;
  let self_name := default PyNone (ScientificName e) in
  names <- match Lineage e with
           | Some s => Ok (map PyStr (split_semicolon_space s))
           | None => Raise (Builtin AttributeError)
           end ;;
  let self_lineage_name := names ++ [self_name] in
  self_parent <- match ParentTaxId e with
                 | Some p => Ok p
                 | None => Raise (Builtin KeyError)
                 end ;;
  self_lineage_id <-
    try_except
      (ex <- match LineageEx e with
             | Some l => Ok l
             | None => Raise (Builtin KeyError)
             end ;;
       ids <- lineage_ex_taxids ex ;;
       Ok (ids ++ [self_taxid]))
      (fun e => match e with Builtin KeyError => true | _ => false end)
      (fun _ => Ok [self_taxid]) ;;
  let d := if py_eq self_taxid (PyInt 1)
           then 0
           else Z.of_nat (List.length self_lineage_id) in
  Ok {| taxid := self_taxid;
        scientific_name := self_name;
        lineage_taxa_name := PyList self_lineage_name;
        lineage_taxa_id := PyList self_lineage_id;
        parent_taxid := self_parent;
        dist_to_root := Some d |}.

(** [Taxon(taxid, scientific_name, lineage_taxa_name, lineage_taxa_id,
    parent_taxid, useremail)]; an argument left out is [PyNone].
    [useremail] only sets [Entrez.email] or logs a warning. *)
Definition Taxon_init (a_taxid a_name a_lin_name a_lin_id a_parent
                       useremail : pyval) : result Taxon :=
  if all_info_given a_taxid a_name a_lin_name a_lin_id a_parent
  then Ok {| taxid := a_taxid;
             scientific_name := a_name;
             lineage_taxa_name := a_lin_name;
             lineage_taxa_id := a_lin_id;
             parent_taxid := a_parent;
             dist_to_root := None |}
  else init_from_directory a_taxid a_name.

(** ** dist_pwy_rxn.py *)

(** The body of the [for] loop of [turn_taxa_into_taxonomic_info], over
    the elements of the set still to visit. *)
Fixpoint turn_taxa_loop (elems : list string) (email : pyval)
         (tax_info : gmap string Taxon) : result (gmap string Taxon) :=
  match elems with
  | [] => Ok tax_info
  | elem :: rest =>
      let tax_number := strip "TAX-" elem in
      tax_info' <-
        try_except
          (taxon <- Taxon_init (PyStr tax_number) PyNone PyNone PyNone PyNone
                               email ;;
           Ok (<[elem := taxon]> tax_info))
          (fun e => match e with TaxonNotFound => true | _ => false end)
          (fun _ => Ok tax_info) ;;
      turn_taxa_loop rest email tax_info'
  end.

Definition turn_taxa_into_taxonomic_info (set_of_taxa : gset string)
           (email : pyval) : result (gmap string Taxon) :=
  turn_taxa_loop (elements set_of_taxa) email ∅.

(** [o.__dict__], what [MyEncoder.default] hands to the JSON encoder. *)
Definition Taxon_dict (o : Taxon) : gmap string pyval :=
  let d : gmap string pyval :=
    <["taxid" := taxid o]>
    (<["scientific_name" := scientific_name o]>
    (<["lineage_taxa_name" := lineage_taxa_name o]>
    (<["lineage_taxa_id" := lineage_taxa_id o]>
    (<["parent_taxid" := parent_taxid o]> ∅)))) in
  match dist_to_root o with
  | Some n => <["dist_to_root" := PyInt n]> d
  | None => d
  end.

(** A file holds a JSON document, kept here in decoded form: [json.load]
    of [json.dumps] of a dictionary with string keys whose values are
    dictionaries of [pyval] is that dictionary again. *)
Definition write_json (data : gmap string Taxon) (jsonfile : string)
           (disk : gmap string (gmap string (gmap string pyval)))
  : gmap string (gmap string (gmap string pyval)) :=
  <[jsonfile := Taxon_dict <$> data]> disk.

(** [d[k]] on a dictionary. *)
Definition dict_get {V : Type} (d : gmap string V) (k : string) : result V :=
  match d !! k with
  | Some v => Ok v
  | None => Raise (Builtin KeyError)
  end.

Fixpoint read_json_loop (items : list (string * gmap string pyval))
         (data_obj : gmap string Taxon) : result (gmap string Taxon) :=
  match items with
  | [] => Ok data_obj
  | (elem, fields) :: rest =>
      a_taxid <- dict_get fields "taxid" ;;
      a_name <- dict_get fields "scientific_name" ;;
      a_lin_name <- dict_get fields "lineage_taxa_name" ;;
      a_lin_id <- dict_get fields "lineage_taxa_name" ;;
      a_parent <- dict_get fields "parent_taxid" ;;
      taxon <- Taxon_init a_taxid a_name a_lin_name a_lin_id a_parent PyNone ;;
      read_json_loop rest (<[elem := taxon]> data_obj)
  end.

Definition read_json (jsonfile : string)
           (disk : gmap string (gmap string (gmap string pyval)))
  : result (gmap string Taxon) :=
  match disk !! jsonfile with
  | None => Raise (Builtin FileNotFoundError)
  | Some data => read_json_loop (map_to_list data) ∅
  end.

End WithDirectory.

(** [[taxdistdata[txn] for txn in rxndata[rxn]]]: stops at the first
    missing key. *)
Fixpoint all_distances (taxdistdata : gmap string Z) (txns : list string)
  : result (list Z) :=
  match txns with
  | [] => Ok []
  | txn :: rest =>
      d <- dict_get taxdistdata txn ;;
      ds <- all_distances taxdistdata rest ;;
      Ok (d :: ds)
  end.

(** The loop of the [except KeyError] handler: one candidate at a time. *)
Fixpoint found_distances (taxdistdata : gmap string Z) (txns : list string)
         (rxn_dist : list Z) : result (list Z) :=
  match txns with
  | [] => Ok rxn_dist
  | txn :: rest =>
      rxn_dist' <-
        try_except (d <- dict_get taxdistdata txn ;; Ok (rxn_dist ++ [d]))
                   (fun e => match e with Builtin KeyError => true | _ => false end)
                   (fun _ => Ok rxn_dist) ;;
      found_distances taxdistdata rest rxn_dist'
  end.

(** The value stored for one reaction. *)
Definition rxn_distance (taxdistdata : gmap string Z) (txns : gset string)
  : result Z :=
  rxn_dist <-
    try_except (all_distances taxdistdata (elements txns))
               (fun e => match e with Builtin KeyError => true | _ => false end)
               (fun _ => found_distances taxdistdata (elements txns) []) ;;
  try_except (py_min rxn_dist)
             (fun e => match e with Builtin ValueError => true | _ => false end)
             (fun _ => Ok 1000).

Fixpoint associate_rxn_loop (items : list (string * gset string))
         (taxdistdata : gmap string Z) (all_rxn_dist : gmap string Z)
  : result (gmap string Z) :=
  match items with
  | [] => Ok all_rxn_dist
  | (rxn, txns) :: rest =>
      d <- rxn_distance taxdistdata txns ;;
      associate_rxn_loop rest taxdistdata (<[rxn := d]> all_rxn_dist)
  end.

Definition associate_rxn_dist (rxndata : gmap string (gset string))
           (taxdistdata : gmap string Z) : result (gmap string Z) :=
  associate_rxn_loop (map_to_list rxndata) taxdistdata ∅.

(** [distance_org_taxa]: the organism is looked up by name, then every
    taxon of the set that the dictionary knows gets its distance from the
    organism.  The call to [get_distance_between_two_taxa] passes no penalty,
    so the default 20 applies and [penalty_price] goes unused. *)
Fixpoint distance_org_loop (taxa : list string) (target_orga : Taxon)
         (taxodic : gmap string Taxon) (taxdist_dic : gmap string Z)
  : result (gmap string Z) :=
  match taxa with
  | [] => Ok taxdist_dic
  | txn :: rest =>
      taxdist_dic' <-
        try_except
          (other <- dict_get taxodic txn ;;
           d <- get_distance_between_two_taxa target_orga other 20 ;;
           Ok (<[txn := d]> taxdist_dic))
          (fun e => match e with Builtin KeyError => true | _ => false end)
          (fun _ => Ok taxdist_dic) ;;
      distance_org_loop rest target_orga taxodic taxdist_dic'
  end.

Definition distance_org_taxa (ncbi : directory) (organism : pyval)
           (taxaset : gset string) (taxodic : gmap string Taxon)
           (email : pyval) (penalty_price : Z) : result (gmap string Z) :=
  target_orga <- Taxon_init ncbi PyNone organism PyNone PyNone PyNone email ;;
  distance_org_loop (elements taxaset) target_orga taxodic ∅.

(** What [pathway_info] reads of a Padmet database once [PadmetSpec] has
    loaded it: the relations, each with its type and its two ends, and the
    nodes by identifier, each with its [misc] dictionary of lists. *)
Module Padmet.

Record Relation : Type := {
  rel_type : string;
  id_in : string;
  id_out : string
}.

Record Node : Type := {
  misc : gmap string (list string)
}.

Record PadmetSpec : Type := {
  getAllRelation : list Relation;
  dicOfNode : gmap string Node
}.

End Padmet.
Import Padmet.

(** The loop of [pathway_info].  The set stored under a reaction is the
    one made for the relation at hand and is reached through that key
    only, so updating it in place is updating the entry. *)
Fixpoint pathway_info_loop (rels : list Relation) (padmet : PadmetSpec)
         (all_taxa : gset string) (rxn_in_pwy : gmap string (gset string))
  : result (gset string * gmap string (gset string)) :=
  match rels with
  | [] => Ok (all_taxa, rxn_in_pwy)
  | rlt :: rest =>
      has_range <-
        (if String.eqb (rel_type rlt) "is_in_pathway"
         then node <- dict_get (dicOfNode padmet) (id_out rlt) ;;
              Ok (bool_decide (is_Some (misc node !! "TAXONOMIC-RANGE")))
         else Ok false) ;;
      if has_range : bool
      then
        let rxn_id := id_in rlt in
        let pwy_id := id_out rlt in
        node <- dict_get (dicOfNode padmet) pwy_id ;;
        range <- dict_get (misc node) "TAXONOMIC-RANGE" ;;
        let taxons_set : gset string := list_to_set range in
        let all_taxa' := all_taxa ∪ taxons_set in
        rxn_in_pwy' <-
          try_except
            (old <- dict_get rxn_in_pwy rxn_id ;;
             Ok (<[rxn_id := old ∪ taxons_set]> rxn_in_pwy))
            (fun e => match e with Builtin KeyError => true | _ => false end)
            (fun _ => Ok (<[rxn_id := taxons_set]> rxn_in_pwy)) ;;
        pathway_info_loop rest padmet all_taxa' rxn_in_pwy'
      else pathway_info_loop rest padmet all_taxa rxn_in_pwy
  end.

(** [pathway_info(metacycdb)].  [PadmetSpec_of metacycdb] is
    [PadmetSpec(metacycdb)], the constructor of the padmet library reading
    the file of that name: the database it loads, or the exception it
    raises, which nothing here catches. *)
Definition pathway_info (PadmetSpec_of : string -> lib_exn + PadmetSpec)
           (metacycdb : string)
  : result (gset string * gmap string (gset string)) :=
  padmet <- call (PadmetSpec_of metacycdb) ;;
  pathway_info_loop (getAllRelation padmet) padmet ∅ ∅.

(** ** The aggregation as the design document words it *)

(** The distances of the candidates that have an entry. *)
Definition resolved_distances (taxonDistances : gmap string Z)
           (candidates : gset string) : list Z :=
  omap (fun label => taxonDistances !! label) (elements candidates).

(** Their minimum, or the sentinel when there is none. *)
Definition minimum_or (sentinel : Z) (distances : list Z) : Z :=
  match distances with
  | [] => sentinel
  | d :: ds => fold_right Z.min d ds
  end.

Definition aggregate (reactionTaxa : gmap string (gset string))
           (taxonDistances : gmap string Z) (sentinel : Z) : gmap string Z :=
  (fun candidates =>
     minimum_or sentinel (resolved_distances taxonDistances candidates))
  <$> reactionTaxa.

(** ** Notions used in the statements *)

(** The longest common leading segment of two lineages. *)
Fixpoint common_prefix (a b : list pyval) : list pyval :=
  match a, b with
  | x :: a', y :: b' => if py_eq x y then x :: common_prefix a' b' else []
  | _, _ => []
  end.

(** What [turn_taxa_into_taxonomic_info] does with one label: the
    constructor call of its loop body. *)
Definition resolve_label (ncbi : directory) (email : pyval) (label : string)
  : result Taxon :=
  Taxon_init ncbi (PyStr (strip "TAX-" label)) PyNone PyNone PyNone PyNone
             email.

(** An identifier that neither begins nor ends with one of the characters
    of the tag, as is every number written in digits. *)
Definition tag_free_ends (id : string) : bool :=
  let l := list_ascii_of_string id in
  match l with
  | [] => true
  | c :: _ => negb (in_chars "TAX-" c) && negb (in_chars "TAX-" (List.last l c))
  end.

(** The five attributes the constructor's first branch asks for. *)
Definition fully_populated (t : Taxon) : bool :=
  all_info_given (taxid t) (scientific_name t) (lineage_taxa_name t)
                 (lineage_taxa_id t) (parent_taxid t).

(** What [read_json] rebuilds from the saved form of a fully populated
    taxon. *)
Definition reloaded (t : Taxon) : Taxon :=
  {| taxid := taxid t;
     scientific_name := scientific_name t;
     lineage_taxa_name := lineage_taxa_name t;
     lineage_taxa_id := lineage_taxa_name t;
     parent_taxid := parent_taxid t;
     dist_to_root := None |}.

(** A directory that cannot be reached: every request ends in an HTTP
    error. *)
Definition unreachable : directory :=
  {| efetch_read := fun _ => inl HTTPError;
     esearch_read := fun _ => inl HTTPError |}.

(** A taxon given by its identifier and the identifiers of its lineage. *)
Definition taxon_of_lineage (id : string) (ids : list string) : Taxon :=
  {| taxid := PyStr id;
     scientific_name := PyStr id;
     lineage_taxa_name := PyList (map PyStr ids);
     lineage_taxa_id := PyList (map PyStr ids);
     parent_taxid := PyStr "0";
     dist_to_root := None |}.

(** What [read_json] passes to the constructor for one saved entry, as an
    object, when every key it reads is there. *)
Definition taxon_of_fields (fields : gmap string pyval) : Taxon :=
  {| taxid := default PyNone (fields !! "taxid");
     scientific_name := default PyNone (fields !! "scientific_name");
     lineage_taxa_name := default PyNone (fields !! "lineage_taxa_name");
     lineage_taxa_id := default PyNone (fields !! "lineage_taxa_name");
     parent_taxid := default PyNone (fields !! "parent_taxid");
     dist_to_root := None |}.

(** Bacteria, as a persisted entry has it. *)
Definition bacteria : Taxon :=
  {| taxid := PyStr "2";
     scientific_name := PyStr "Bacteria";
     lineage_taxa_name := PyList [PyStr "cellular organisms"; PyStr "Bacteria"];
     lineage_taxa_id := PyList [PyStr "131567"; PyStr "2"];
     parent_taxid := PyStr "131567";
     dist_to_root := None |}.

Definition example_taxa : gmap string Taxon := {[ "TAX-2" := bacteria ]}.

(** The root of the taxonomy, NCBI identifier 1, with its identifier held
    the way every identifier is held: as a string. *)
Definition root_taxon : Taxon :=
  {| taxid := PyStr "1";
     scientific_name := PyStr "root";
     lineage_taxa_name := PyList [PyStr "root"];
     lineage_taxa_id := PyList [PyStr "1"];
     parent_taxid := PyStr "1";
     dist_to_root := None |}.

(** Bacteria saved with empty lineages, the document that holds it, and
    Bacteria as [bacteria_only] serves it. *)
Definition incomplete_bacteria : Taxon :=
  {| taxid := PyStr "2";
     scientific_name := PyStr "Bacteria";
     lineage_taxa_name := PyList [];
     lineage_taxa_id := PyList [];
     parent_taxid := PyStr "131567";
     dist_to_root := None |}.

Definition incomplete_doc : gmap string (gmap string pyval) :=
  {[ "TAX-2" := Taxon_dict incomplete_bacteria ]}.

Definition fetched_bacteria : Taxon :=
  {| taxid := PyStr "2";
     scientific_name := PyStr "Bacteria";
     lineage_taxa_name := PyList [PyStr "cellular organisms"; PyStr "Bacteria"];
     lineage_taxa_id := PyList [PyStr "131567"; PyStr "2"];
     parent_taxid := PyStr "131567";
     dist_to_root := Some 2 |}.

(** A label whose identifier ends with characters of the tag, alone in
    its set, and what [turn_taxa_into_taxonomic_info] returns for it from
    [bacteria_only]. *)
Definition tagged_end_labels : gset string := {[ "TAX-2XA" ]}.

Definition tagged_end_info : gmap string Taxon :=
  {[ "TAX-2XA" := fetched_bacteria ]}.

(** A document whose only entry has an identifier and nothing else. *)
Definition taxid_only_doc : gmap string (gmap string pyval) :=
  {[ "TAX-2" := {[ "taxid" := PyStr "2" ]} ]}.

(** An identifier written in decimal digits. *)
Definition is_digit (c : ascii) : bool :=
  (48 <=? nat_of_ascii c)%nat && (nat_of_ascii c <=? 57)%nat.

Definition all_digits (id : string) : bool :=
  forallb is_digit (list_ascii_of_string id).

(** A directory that knows Bacteria only and answers every other request
    with an empty list of records. *)
Definition bacteria_only : directory :=
  {| efetch_read := fun id =>
       if py_eq id (PyStr "2")
       then inr [ {| ScientificName := Some (PyStr "Bacteria");
                     Lineage := Some "cellular organisms";
                     ParentTaxId := Some (PyStr "131567");
                     LineageEx := Some [Some (PyStr "131567")] |} ]
       else inr [];
     esearch_read := fun _ => inr (Some []) |}.

(** A directory whose requests all end in a transport failure that is not
    an HTTP status. *)
Definition timing_out : directory :=
  {| efetch_read := fun _ => inl URLError;
     esearch_read := fun _ => inl URLError |}.

Definition example_labels : gset string := {[ "TAX-2"; "TAX-0" ]}.

(** The aggregation example of the design document: one reaction whose
    three candidates are at distances 5, 2 and 9. *)
Definition example_candidates : gset string := {[ "TAX-5"; "TAX-2"; "TAX-9" ]}.

Definition example_rxndata : gmap string (gset string) :=
  {[ "RXN-1" := example_candidates ]}.

Definition example_taxdistdata : gmap string Z :=
  {[ "TAX-5" := 5; "TAX-2" := 2; "TAX-9" := 9 ]}.

(** The example reaction with one more candidate, at distance 1. *)
Definition example_rxndata_more : gmap string (gset string) :=
  {[ "RXN-1" := example_candidates ∪ {[ "TAX-1" ]} ]}.

Definition example_taxdistdata_more : gmap string Z :=
  <["TAX-1" := 1]> example_taxdistdata.

(** A directory that knows Bacteria by name and by identifier. *)
Definition bacteria_by_name : directory :=
  {| efetch_read := efetch_read bacteria_only;
     esearch_read := fun term =>
       if py_eq term (PyStr "Bacteria")
       then inr (Some [PyStr "2"])
       else inr (Some []) |}.

(** The relation [rlt] places a reaction in a pathway whose node declares
    the taxonomic range [range]. *)
Definition declares_range (padmet : PadmetSpec) (rlt : Relation)
           (range : list string) : Prop :=
  rel_type rlt = "is_in_pathway"
  /\ exists node,
      dicOfNode padmet !! id_out rlt = Some node
      /\ misc node !! "TAXONOMIC-RANGE" = Some range.

(** A database with one reaction in two pathways, one of them without a
    taxonomic range, and one relation of another type. *)
Definition example_padmet : PadmetSpec :=
  {| getAllRelation :=
       [ {| rel_type := "is_in_pathway"; id_in := "RXN-1"; id_out := "PWY-1" |};
         {| rel_type := "has_xref"; id_in := "RXN-1"; id_out := "XREF-1" |};
         {| rel_type := "is_in_pathway"; id_in := "RXN-1"; id_out := "PWY-2" |} ];
     dicOfNode :=
       {[ "PWY-1" := {| misc := {[ "TAXONOMIC-RANGE" := ["TAX-2"; "TAX-0"] ]} |};
          "PWY-2" := {| misc := ∅ |} ]} |}.

(** What [pathway_info] returns for [example_padmet]. *)
Definition example_rxn_in_pwy : gmap string (gset string) :=
  {[ "RXN-1" := example_labels ]}.

(** The same with a relation to a pathway that has no node. *)
Definition broken_padmet : PadmetSpec :=
  {| getAllRelation :=
       [ {| rel_type := "is_in_pathway"; id_in := "RXN-1"; id_out := "PWY-9" |} ];
     dicOfNode := dicOfNode example_padmet |}.

(** A disk with two Padmet files, the second one the broken one. *)
Definition example_PadmetSpec_of (metacycdb : string)
  : lib_exn + PadmetSpec :=
  if String.eqb metacycdb "metacyc.padmet" then inr example_padmet
  else if String.eqb metacycdb "broken.padmet" then inr broken_padmet
       else inl FileNotFoundError.

(** * Properties *)

(** ** Equality of Python values *)

Lemma pyval_nested_ind (P : pyval -> Prop) :
  P PyNone ->
  (forall n, P (PyInt n)) ->
  (forall s, P (PyStr s)) ->
  (forall l, Forall P l -> P (PyList l)) ->
  forall v, P v.
Proof.
  intros HN HI HS HL. fix IH 1.
  intros [| n | s | l]; [exact HN | apply HI | apply HS |].
  apply HL. induction l as [| x l IHl]; constructor; [apply IH | exact IHl].
Qed.

Lemma py_eq_true_iff (a : pyval) : forall b, py_eq a b = true <-> a = b.
Proof.
  induction a as [| n | s | l IHl] using pyval_nested_ind; intros b.
  - destruct b; simpl; split; congruence.
  - destruct b; simpl; try (split; congruence).
    rewrite Z.eqb_eq. split; congruence.
  - destruct b; simpl; try (split; congruence).
    rewrite String.eqb_eq. split; congruence.
  - destruct b as [| | | l']; simpl; try (split; congruence).
    revert l'. induction IHl as [| x l Hx _ IH]; intros [| y l'];
      try (split; congruence).
    rewrite andb_true_iff, Hx, IH. split.
    + intros [-> H]. congruence.
    + intros H. injection H as -> ->. auto.
Qed.

Lemma py_eq_refl (a : pyval) : py_eq a a = true.
Proof. now apply py_eq_true_iff. Qed.

Lemma py_eq_false (a b : pyval) : a <> b -> py_eq a b = false.
Proof.
  intros H. destruct (py_eq a b) eqn:E; [| reflexivity].
  apply py_eq_true_iff in E. contradiction.
Qed.

Lemma py_eq_str_int (s : string) (n : Z) : py_eq (PyStr s) (PyInt n) = false.
Proof. reflexivity. Qed.

(** ** The walk along two lineages *)

Lemma getitem_middle (pa a : list pyval) (x : pyval) :
  getitem (PyList (pa ++ x :: a)) (List.length pa) = Ok x.
Proof.
  simpl. rewrite nth_error_app2 by lia. now rewrite Nat.sub_diag.
Qed.

(** Started at index [length pa] on lists that extend [pa] and [pb], the
    loop appends the common prefix of the remainders. *)
Lemma common_loop_lists (a : list pyval) :
  forall (b pa pb common : list pyval),
    List.length pa = List.length pb ->
    common_loop (Nat.min (List.length a) (List.length b))
                (PyList (pa ++ a)) (PyList (pb ++ b)) (List.length pa) common
    = Ok (common ++ common_prefix a b).
Proof.
  induction a as [| x a IH]; intros b pa pb common Hlen.
  - simpl. now rewrite app_nil_r.
  - destruct b as [| y b].
    + simpl. now rewrite app_nil_r.
    + cbn [List.length Nat.min common_loop common_prefix].
      rewrite getitem_middle. cbn [bind].
      rewrite Hlen, getitem_middle. cbn [bind].
      destruct (py_eq x y).
      * specialize (IH b (pa ++ [x]) (pb ++ [y]) (common ++ [x])).
        rewrite !length_app in IH. cbn [List.length] in IH.
        rewrite <- !app_assoc in IH. cbn [app] in IH.
        rewrite <- Hlen. replace (S (List.length pa)) with (List.length pa + 1)%nat by lia.
        now rewrite IH by lia.
      * now rewrite app_nil_r.
Qed.

Lemma distance_walk_lists (self other : Taxon) (a b : list pyval) :
  lineage_taxa_id self = PyList a ->
  lineage_taxa_id other = PyList b ->
  distance_walk self other =
  Ok {| common_tax_id := common_prefix a b;
        up_distance := Z.of_nat (List.length a)
                       - Z.of_nat (List.length (common_prefix a b));
        down_distance :=
          if negb (Z.eqb (Z.of_nat (List.length a)
                          - Z.of_nat (List.length (common_prefix a b))) 0)
          then Z.of_nat (List.length b)
               - Z.of_nat (List.length (common_prefix a b))
          else 0 |}.
Proof.
  intros Ha Hb. unfold distance_walk. rewrite Ha, Hb. cbn [len bind].
  replace (Z.to_nat _) with (Nat.min (List.length a) (List.length b)).
  - pose proof (common_loop_lists a b [] [] [] eq_refl) as H.
    cbn [app List.length] in H. rewrite H. reflexivity.
  - destruct (Z.leb_spec (Z.of_nat (List.length a)) (Z.of_nat (List.length b))); lia.
Qed.

Lemma common_prefix_app (p a b : list pyval) :
  common_prefix (p ++ a) (p ++ b) = p ++ common_prefix a b.
Proof.
  induction p as [| x p IH]; [reflexivity |].
  simpl. now rewrite py_eq_refl, IH.
Qed.

Lemma common_prefix_nil_r (a : list pyval) : common_prefix a [] = [].
Proof. now destruct a. Qed.

(** ** The distance between two taxa *)

(** The first branch of [get_distance_between_two_taxa] is the test
    [anothertaxon.taxid == 1] against the integer: a target whose
    identifier is the integer 1 gets the length of the query's lineage,
    whatever the penalty. *)
Lemma distance_to_int_root (query target : Taxon) (penalty : Z) :
  taxid target = PyInt 1 ->
  get_distance_between_two_taxa query target penalty
  = len (lineage_taxa_id query).
Proof.
  intros H. unfold get_distance_between_two_taxa. now rewrite H.
Qed.

(** A target whose identifier is a string never takes that branch, also
    when the string is ["1"]. *)
Lemma distance_to_str_taxid (query target : Taxon) (penalty : Z) (s : string) :
  taxid target = PyStr s ->
  get_distance_between_two_taxa query target penalty
  = (st <- distance_walk query target ;;
     Ok (up_distance st + down_distance st * penalty)).
Proof.
  intros H. unfold get_distance_between_two_taxa. now rewrite H.
Qed.

(** C2, on the code: the root of the taxonomy has the string ["1"] as
    identifier, which is not equal to the integer [1] the first branch tests
    for; from Bacteria, whose lineage has length 2, the distance to it with
    penalty 20 is [2 + 1 * 20 = 22] and not 2, and it changes with the
    penalty. *)
Theorem distance_to_root_as_built :
  fully_populated root_taxon = true
  /\ get_distance_between_two_taxa bacteria root_taxon 20 = Ok 22
  /\ get_distance_between_two_taxa bacteria root_taxon 0 = Ok 2
  /\ len (lineage_taxa_id bacteria) = Ok 2
  /\ distance_walk bacteria root_taxon
     = Ok {| common_tax_id := []; up_distance := 2; down_distance := 1 |}.
Proof. repeat split; reflexivity. Qed.

(** C6: a query with lineage [p ++ [c]] and a target, not the root, with
    lineage [p ++ [d]], where [c] and [d] differ, share the prefix [p]; the
    walk goes one step up and one step down, and the distance is
    [1 + 1 * penalty]. *)
Theorem siblings_distance (query target : Taxon) (penalty : Z)
        (p : list pyval) (c d : pyval) :
  py_eq (taxid target) (PyInt 1) = false ->
  lineage_taxa_id query = PyList (p ++ [c]) ->
  lineage_taxa_id target = PyList (p ++ [d]) ->
  py_eq c d = false ->
  distance_walk query target
  = Ok {| common_tax_id := p; up_distance := 1; down_distance := 1 |}
  /\ get_distance_between_two_taxa query target penalty = Ok (1 + 1 * penalty).
Proof.
  intros Hroot Hq Ht Hcd.
  assert (Hw : distance_walk query target
               = Ok {| common_tax_id := p; up_distance := 1;
                       down_distance := 1 |}).
  { rewrite (distance_walk_lists _ _ _ _ Hq Ht).
    rewrite common_prefix_app. cbn [common_prefix]. rewrite Hcd, app_nil_r.
    rewrite !length_app. cbn [List.length].
    replace (Z.of_nat (List.length p + 1) - Z.of_nat (List.length p)) with 1
      by lia.
    reflexivity. }
  split; [exact Hw |].
  unfold get_distance_between_two_taxa. rewrite Hroot, Hw. reflexivity.
Qed.

Lemma siblings_distance_witness :
  distance_walk (taxon_of_lineage "C" ["A"; "B"; "C"])
                (taxon_of_lineage "D" ["A"; "B"; "D"])
  = Ok {| common_tax_id := [PyStr "A"; PyStr "B"];
          up_distance := 1; down_distance := 1 |}
  /\ get_distance_between_two_taxa (taxon_of_lineage "C" ["A"; "B"; "C"])
                                   (taxon_of_lineage "D" ["A"; "B"; "D"]) 20
     = Ok 21.
Proof.
  exact (siblings_distance (taxon_of_lineage "C" ["A"; "B"; "C"])
                           (taxon_of_lineage "D" ["A"; "B"; "D"]) 20
                           [PyStr "A"; PyStr "B"] (PyStr "C") (PyStr "D")
                           eq_refl eq_refl eq_refl eq_refl).
Defined.

(** C7: when the lineage of the query is a prefix of the lineage of the
    target, or the other way round, and the target is not the root, the
    common prefix is the shorter lineage, the walk goes
    [len(query lineage) - len(common prefix)] steps up and none down, and
    the distance is that number of steps up for every penalty; from a
    taxon to itself it is 0. *)
Theorem ancestor_distance (query target : Taxon) (penalty : Z)
        (q t : list pyval) :
  py_eq (taxid target) (PyInt 1) = false ->
  lineage_taxa_id query = PyList q ->
  lineage_taxa_id target = PyList t ->
  q `prefix_of` t \/ t `prefix_of` q ->
  exists st,
    distance_walk query target = Ok st
    /\ Z.of_nat (List.length (common_tax_id st))
       = Z.min (Z.of_nat (List.length q)) (Z.of_nat (List.length t))
    /\ up_distance st
       = Z.of_nat (List.length q) - Z.of_nat (List.length (common_tax_id st))
    /\ down_distance st = 0
    /\ get_distance_between_two_taxa query target penalty
       = Ok (up_distance st)
    /\ (target = query ->
        get_distance_between_two_taxa query target penalty = Ok 0).
Proof.
  intros Hroot Hq Ht Hpre.
  pose proof (distance_walk_lists _ _ _ _ Hq Ht) as Hw.
  set (cp := common_prefix q t) in *.
  assert (Hcp : (cp = q /\ (List.length q <= List.length t)%nat)
                \/ (cp = t /\ (List.length t <= List.length q)%nat)).
  { destruct Hpre as [[k ->] | [k ->]]; subst cp.
    - left. rewrite <- (app_nil_r q) at 1.
      rewrite common_prefix_app, length_app. cbn. rewrite app_nil_r.
      split; [reflexivity | lia].
    - right. rewrite <- (app_nil_r t) at 2.
      rewrite common_prefix_app, common_prefix_nil_r, app_nil_r, length_app.
      split; [reflexivity | lia]. }
  assert (Hdown : (if negb (Z.eqb (Z.of_nat (List.length q)
                                   - Z.of_nat (List.length cp)) 0)
                   then Z.of_nat (List.length t) - Z.of_nat (List.length cp)
                   else 0) = 0).
  { destruct (Z.eqb_spec (Z.of_nat (List.length q)
                          - Z.of_nat (List.length cp)) 0) as [E | E];
      cbn [negb]; [reflexivity |].
    destruct Hcp as [[Hc _] | [Hc _]]; rewrite Hc in *; lia. }
  rewrite Hdown in Hw.
  eexists. split; [exact Hw |]. cbn [common_tax_id up_distance down_distance].
  split; [destruct Hcp as [[-> ?] | [-> ?]]; lia |].
  split; [reflexivity |]. split; [reflexivity |].
  assert (Hd : get_distance_between_two_taxa query target penalty
               = Ok (Z.of_nat (List.length q) - Z.of_nat (List.length cp))).
  { unfold get_distance_between_two_taxa. rewrite Hroot, Hw.
    cbn [bind up_distance down_distance]. f_equal. lia. }
  split; [exact Hd |].
  intros ->. rewrite Hd. f_equal.
  rewrite Hq in Ht. injection Ht as <-.
  destruct Hcp as [[-> ?] | [-> ?]]; lia.
Qed.

Lemma ancestor_distance_witness :
  (exists st,
      distance_walk (taxon_of_lineage "C" ["A"; "B"; "C"])
                    (taxon_of_lineage "A" ["A"]) = Ok st
      /\ down_distance st = 0
      /\ get_distance_between_two_taxa (taxon_of_lineage "C" ["A"; "B"; "C"])
                                       (taxon_of_lineage "A" ["A"]) 20
         = Ok (up_distance st))
  /\ get_distance_between_two_taxa (taxon_of_lineage "C" ["A"; "B"; "C"])
                                   (taxon_of_lineage "C" ["A"; "B"; "C"]) 20
     = Ok 0.
Proof.
  split.
  - destruct (ancestor_distance (taxon_of_lineage "C" ["A"; "B"; "C"])
                                (taxon_of_lineage "A" ["A"]) 20
                                [PyStr "A"; PyStr "B"; PyStr "C"] [PyStr "A"]
                                eq_refl eq_refl eq_refl
                                (or_intror (ex_intro _ [PyStr "B"; PyStr "C"]
                                                     eq_refl)))
      as (st & Hw & _ & _ & Hdown & Hd & _).
    exists st. repeat split; assumption.
  - destruct (ancestor_distance (taxon_of_lineage "C" ["A"; "B"; "C"])
                                (taxon_of_lineage "C" ["A"; "B"; "C"]) 20
                                [PyStr "A"; PyStr "B"; PyStr "C"]
                                [PyStr "A"; PyStr "B"; PyStr "C"]
                                eq_refl eq_refl eq_refl
                                (or_introl (ex_intro _ [] eq_refl)))
      as (st & _ & _ & _ & _ & _ & Hself).
    exact (Hself eq_refl).
Defined.

(** ** The constructor *)

Lemma truthy_false_iff (v : pyval) :
  truthy v = false
  <-> v = PyNone \/ v = PyInt 0 \/ v = PyStr EmptyString \/ v = PyList [].
Proof.
  destruct v as [| n | s | [| x l]]; simpl.
  - tauto.
  - rewrite negb_false_iff, Z.eqb_eq.
    split; [intros ->; tauto | intros [H | [H | [H | H]]]; congruence].
  - rewrite negb_false_iff, String.eqb_eq.
    split; [intros ->; tauto | intros [H | [H | [H | H]]]; congruence].
  - tauto.
  - split; [discriminate | intros [H | [H | [H | H]]]; discriminate].
Qed.

(** The branch that queries the directory always records a distance to the
    root, which the branch given all fields never does. *)
Lemma init_from_directory_dist (ncbi : directory) (a_taxid a_name : pyval)
      (t : Taxon) :
  init_from_directory ncbi a_taxid a_name = Ok t -> is_Some (dist_to_root t).
Proof.
  unfold init_from_directory, bind. intros H.
  repeat match type of H with
         | match ?x with _ => _ end = _ => destruct x; try discriminate
         end.
  injection H as <-. simpl. eauto.
Qed.

Lemma bind_not_invalid {A B : Type} (m : result A) (k : A -> result B) :
  m <> Raise TaxonInvalidInput ->
  (forall a, k a <> Raise TaxonInvalidInput) ->
  bind m k <> Raise TaxonInvalidInput.
Proof.
  intros Hm Hk. destruct m as [a | e]; simpl; [apply Hk | congruence].
Qed.

Lemma try_except_not_invalid {A : Type} (m : result A) (caught : exn -> bool)
      (h : exn -> result A) :
  m <> Raise TaxonInvalidInput ->
  (forall e, h e <> Raise TaxonInvalidInput) ->
  try_except m caught h <> Raise TaxonInvalidInput.
Proof.
  intros Hm Hh. destruct m as [a | e]; simpl; [discriminate |].
  destruct (caught e); [apply Hh | congruence].
Qed.

Lemma call_not_invalid {A : Type} (r : lib_exn + A) :
  call r <> Raise TaxonInvalidInput.
Proof. destruct r; discriminate. Qed.

Lemma lineage_ex_taxids_not_invalid (l : list (option pyval)) :
  lineage_ex_taxids l <> Raise TaxonInvalidInput.
Proof.
  induction l as [| [x |] l IH]; simpl; try discriminate.
  apply bind_not_invalid; [exact IH | discriminate].
Qed.

Ltac not_invalid :=
  repeat first
    [ apply bind_not_invalid; [| intros ?]
    | apply try_except_not_invalid; [| intros ?]
    | apply call_not_invalid
    | apply lineage_ex_taxids_not_invalid
    | discriminate
    | match goal with
      | |- match ?x with _ => _ end <> _ => destruct x
      end
    | progress lazy zeta ].

(** It raises [TaxonInvalidInput] exactly when both the identifier and the
    name are false in a test. *)
Lemma init_from_directory_invalid (ncbi : directory) (a_taxid a_name : pyval) :
  init_from_directory ncbi a_taxid a_name = Raise TaxonInvalidInput
  <-> truthy a_taxid = false /\ truthy a_name = false.
Proof.
  split.
  - destruct (truthy a_taxid) eqn:E1, (truthy a_name) eqn:E2;
      try (intros _; split; reflexivity);
      intros H; exfalso; revert H;
      unfold init_from_directory, get_taxid_from_name;
      rewrite E1, E2; cbn [negb andb]; not_invalid.
  - intros [E1 E2]. unfold init_from_directory. rewrite E1, E2. reflexivity.
Qed.

(** C8: with neither an identifier nor a name, whatever the other
    arguments and whatever the directory would answer, the constructor
    raises [TaxonInvalidInput] and no taxon is built. *)
Theorem no_identifier_no_name (ncbi : directory)
        (a_lin_name a_lin_id a_parent useremail : pyval) :
  Taxon_init ncbi PyNone PyNone a_lin_name a_lin_id a_parent useremail
  = Raise TaxonInvalidInput.
Proof. reflexivity. Qed.

(** C10: the constructor returns the object made of the five given fields,
    the one without a recorded distance to the root, only when all five are
    true in a test, and then it does; when one of them is false in a test
    ([None], an empty string, an empty list) it does what the branch that
    queries the directory does with the identifier and the name alone, which
    raises [TaxonInvalidInput] exactly when these two are both false in a
    test. *)
Theorem full_field_branch (ncbi : directory)
        (a_taxid a_name a_lin_name a_lin_id a_parent useremail : pyval) :
  (forall t,
      Taxon_init ncbi a_taxid a_name a_lin_name a_lin_id a_parent useremail
      = Ok t ->
      dist_to_root t = None ->
      truthy a_taxid = true /\ truthy a_name = true
      /\ truthy a_lin_name = true /\ truthy a_lin_id = true
      /\ truthy a_parent = true)
  /\ (truthy a_taxid = true -> truthy a_name = true ->
      truthy a_lin_name = true -> truthy a_lin_id = true ->
      truthy a_parent = true ->
      Taxon_init ncbi a_taxid a_name a_lin_name a_lin_id a_parent useremail
      = Ok {| taxid := a_taxid; scientific_name := a_name;
              lineage_taxa_name := a_lin_name; lineage_taxa_id := a_lin_id;
              parent_taxid := a_parent; dist_to_root := None |})
  /\ (truthy a_taxid = false \/ truthy a_name = false
      \/ truthy a_lin_name = false \/ truthy a_lin_id = false
      \/ truthy a_parent = false ->
      Taxon_init ncbi a_taxid a_name a_lin_name a_lin_id a_parent useremail
      = init_from_directory ncbi a_taxid a_name
      /\ (Taxon_init ncbi a_taxid a_name a_lin_name a_lin_id a_parent
                     useremail
          = Raise TaxonInvalidInput
          <-> truthy a_taxid = false /\ truthy a_name = false)).
Proof.
  unfold Taxon_init. split; [| split].
  - intros t Ht Hd.
    destruct (all_info_given a_taxid a_name a_lin_name a_lin_id a_parent)
      eqn:E.
    + unfold all_info_given in E. rewrite !andb_true_iff in E. tauto.
    + apply init_from_directory_dist in Ht. destruct Ht as [z Hz]. congruence.
  - intros H1 H2 H3 H4 H5. unfold all_info_given.
    rewrite H1, H2, H3, H4, H5. reflexivity.
  - intros Hor.
    assert (E : all_info_given a_taxid a_name a_lin_name a_lin_id a_parent
                = false).
    { unfold all_info_given. rewrite !andb_false_iff. tauto. }
    rewrite E. split; [reflexivity | apply init_from_directory_invalid].
Qed.

Lemma full_field_branch_witness :
  Taxon_init unreachable (PyStr "2") (PyStr "Bacteria")
             (PyList [PyStr "Bacteria"]) (PyList []) (PyStr "131567") PyNone
  = init_from_directory unreachable (PyStr "2") (PyStr "Bacteria")
  /\ Taxon_init unreachable (PyStr "2") (PyStr "Bacteria")
                (PyList [PyStr "Bacteria"]) (PyList []) (PyStr "131567")
                PyNone
     <> Raise TaxonInvalidInput
  /\ Taxon_init unreachable PyNone (PyStr EmptyString)
                (PyList [PyStr "Bacteria"]) (PyList [PyStr "2"])
                (PyStr "131567") PyNone
     = Raise TaxonInvalidInput.
Proof.
  destruct (full_field_branch unreachable (PyStr "2") (PyStr "Bacteria")
                              (PyList [PyStr "Bacteria"]) (PyList [])
                              (PyStr "131567") PyNone)
    as (_ & _ & Hfall).
  destruct (Hfall (or_intror (or_intror (or_intror (or_introl eq_refl)))))
    as [Heq Hinv].
  destruct (full_field_branch unreachable PyNone (PyStr EmptyString)
                              (PyList [PyStr "Bacteria"])
                              (PyList [PyStr "2"]) (PyStr "131567") PyNone)
    as (_ & _ & Hfall').
  destruct (Hfall' (or_introl eq_refl)) as [_ Hinv'].
  split; [exact Heq |]. split.
  - intros H. apply Hinv in H. destruct H as [H _]. discriminate H.
  - apply Hinv'. split; reflexivity.
Defined.

(** ** Aggregation over the candidates of a reaction *)

(** Inserting, for each pair of a list with distinct keys, the image of the
    value: the loops over [map_to_list] of a dictionary all have this
    shape. *)
Lemma foldl_insert_lookup {V W : Type} (g : V -> W)
      (items : list (string * V)) :
  forall (acc : gmap string W) (k : string),
    NoDup items.*1 ->
    foldl (fun a kv => <[kv.1 := g kv.2]> a) acc items !! k
    = match (list_to_map items : gmap string V) !! k with
      | Some v => Some (g v)
      | None => acc !! k
      end.
Proof.
  induction items as [| [k0 v0] items IH]; intros acc k Hnd.
  - simpl. now rewrite lookup_empty.
  - apply NoDup_cons in Hnd as [Hk0 Hnd]. cbn [foldl fst snd].
    rewrite list_to_map_cons, IH by assumption. destruct (decide (k = k0)) as [-> | Hne].
    + rewrite (not_elem_of_list_to_map_1 (M := gmap string) items k0 Hk0).
      now rewrite !lookup_insert_eq.
    + rewrite !lookup_insert_ne by congruence. reflexivity.
Qed.

Lemma foldl_insert_map_to_list {V W : Type} (g : V -> W) (m : gmap string V) :
  foldl (fun a kv => <[kv.1 := g kv.2]> a) ∅ (map_to_list m) = g <$> m.
Proof.
  apply map_eq. intros k.
  rewrite foldl_insert_lookup by apply NoDup_fst_map_to_list.
  rewrite list_to_map_to_list, lookup_fmap, lookup_empty.
  now destruct (m !! k).
Qed.

Lemma all_distances_spec (taxdistdata : gmap string Z) (txns : list string) :
  match all_distances taxdistdata txns with
  | Ok ds => ds = omap (fun txn => taxdistdata !! txn) txns
  | Raise e => e = Builtin KeyError
  end.
Proof.
  induction txns as [| txn rest IH]; [reflexivity |].
  cbn [all_distances omap list_omap]. unfold dict_get.
  destruct (taxdistdata !! txn) as [d |]; cbn [bind]; [| reflexivity].
  destruct (all_distances taxdistdata rest) as [ds | e]; cbn [bind].
  - now rewrite IH.
  - exact IH.
Qed.

Lemma found_distances_spec (taxdistdata : gmap string Z) (txns : list string) :
  forall rxn_dist,
    found_distances taxdistdata txns rxn_dist
    = Ok (rxn_dist ++ omap (fun txn => taxdistdata !! txn) txns).
Proof.
  induction txns as [| txn rest IH]; intros rxn_dist.
  - simpl. now rewrite app_nil_r.
  - cbn [found_distances omap list_omap]. unfold dict_get.
    destruct (taxdistdata !! txn) as [d |]; cbn [bind try_except].
    + rewrite IH. now rewrite <- app_assoc.
    + apply IH.
Qed.

Lemma fold_right_min_init (l : list Z) (x a : Z) :
  fold_right Z.min (Z.min x a) l = Z.min a (fold_right Z.min x l).
Proof. induction l as [| y l IH]; simpl; [| rewrite IH]; lia. Qed.

Lemma py_min_fold (l : list Z) (x : Z) :
  fold_left (fun m y => if Z.ltb y m then y else m) l x
  = fold_right Z.min x l.
Proof.
  revert x. induction l as [| a l IH]; intros x; [reflexivity |].
  cbn [fold_left fold_right]. rewrite IH.
  replace (if Z.ltb a x then a else x) with (Z.min x a)
    by (destruct (Z.ltb_spec a x); lia).
  apply fold_right_min_init.
Qed.

Lemma py_min_minimum_or (l : list Z) :
  try_except (py_min l)
             (fun e => match e with Builtin ValueError => true | _ => false end)
             (fun _ => Ok 1000)
  = Ok (minimum_or 1000 l).
Proof.
  destruct l as [| d ds]; [reflexivity |].
  cbn [py_min try_except minimum_or]. now rewrite py_min_fold.
Qed.

Lemma rxn_distance_spec (taxdistdata : gmap string Z) (txns : gset string) :
  rxn_distance taxdistdata txns
  = Ok (minimum_or 1000 (resolved_distances taxdistdata txns)).
Proof.
  unfold rxn_distance, resolved_distances.
  pose proof (all_distances_spec taxdistdata (elements txns)) as H.
  destruct (all_distances taxdistdata (elements txns)) as [ds | e].
  - subst ds. cbn [try_except bind]. apply py_min_minimum_or.
  - subst e. cbn [try_except]. rewrite found_distances_spec.
    cbn [app bind]. apply py_min_minimum_or.
Qed.

Lemma associate_rxn_loop_spec (taxdistdata : gmap string Z)
      (items : list (string * gset string)) :
  forall acc,
    associate_rxn_loop items taxdistdata acc
    = Ok (foldl (fun a kv =>
                   <[kv.1 := minimum_or 1000
                               (resolved_distances taxdistdata kv.2)]> a)
                acc items).
Proof.
  induction items as [| [rxn txns] items IH]; intros acc; [reflexivity |].
  cbn [associate_rxn_loop foldl fst snd].
  rewrite rxn_distance_spec. cbn [bind]. apply IH.
Qed.

Lemma minimum_or_nonempty (sentinel : Z) (l : list Z) :
  l <> [] ->
  minimum_or sentinel l ∈ l /\ forall x, x ∈ l -> minimum_or sentinel l <= x.
Proof.
  destruct l as [| d ds]; [congruence | intros _]. cbn [minimum_or].
  induction ds as [| a ds [IHin IHle]]; cbn [fold_right].
  - split; [left | intros x Hx; apply list_elem_of_singleton in Hx; lia].
  - split.
    + destruct (Z.min_spec a (fold_right Z.min d ds)) as [[_ ->] | [_ ->]].
      * right. left.
      * apply elem_of_cons in IHin as [-> | Hin];
          [left | right; right; exact Hin].
    + intros x Hx. apply elem_of_cons in Hx as [-> | Hx].
      * specialize (IHle d (ltac:(left))). lia.
      * apply elem_of_cons in Hx as [-> | Hx]; [lia |].
        specialize (IHle x (ltac:(right; exact Hx))). lia.
Qed.

Lemma elem_of_resolved_distances (taxdistdata : gmap string Z)
      (txns : gset string) (x : Z) :
  x ∈ resolved_distances taxdistdata txns
  <-> exists txn, txn ∈ txns /\ taxdistdata !! txn = Some x.
Proof.
  unfold resolved_distances. rewrite list_elem_of_omap.
  split; intros (txn & Hin & Hx); exists txn; split; try exact Hx;
    now apply elem_of_elements.
Qed.

Lemma associate_rxn_dist_fmap (rxndata : gmap string (gset string))
      (taxdistdata : gmap string Z) :
  associate_rxn_dist rxndata taxdistdata
  = Ok ((fun txns => minimum_or 1000 (resolved_distances taxdistdata txns))
        <$> rxndata).
Proof.
  unfold associate_rxn_dist. rewrite associate_rxn_loop_spec.
  f_equal.
  apply (foldl_insert_map_to_list
           (fun txns => minimum_or 1000 (resolved_distances taxdistdata txns))).
Qed.

(** C3: [associate_rxn_dist] returns a dictionary with the reactions of
    [rxndata] as keys; the value of a reaction is 1000 when none of its
    candidates has an entry in [taxdistdata], and otherwise it is the
    distance of one of the candidates that have an entry and is at most the
    distance of each of them; candidates without entry raise nothing. *)
Theorem reaction_gets_minimum (rxndata : gmap string (gset string))
        (taxdistdata : gmap string Z) (rxn : string) (txns : gset string) :
  rxndata !! rxn = Some txns ->
  exists (all_rxn_dist : gmap string Z) (d : Z),
    associate_rxn_dist rxndata taxdistdata = Ok all_rxn_dist
    /\ (forall r, is_Some (all_rxn_dist !! r) <-> is_Some (rxndata !! r))
    /\ all_rxn_dist !! rxn = Some d
    /\ ((forall txn, txn ∈ txns -> taxdistdata !! txn = None) -> d = 1000)
    /\ ((exists txn, txn ∈ txns /\ is_Some (taxdistdata !! txn)) ->
        (exists txn, txn ∈ txns /\ taxdistdata !! txn = Some d)
        /\ (forall txn x,
               txn ∈ txns -> taxdistdata !! txn = Some x -> d <= x)).
Proof.
  intros Hrxn. eexists; eexists.
  split; [apply associate_rxn_dist_fmap |].
  split; [intros r; rewrite lookup_fmap; apply fmap_is_Some |].
  split; [rewrite lookup_fmap, Hrxn; reflexivity |].
  split.
  - intros Hnone.
    destruct (resolved_distances taxdistdata txns) as [| x l] eqn:E;
      [reflexivity | exfalso].
    assert (Hx : x ∈ resolved_distances taxdistdata txns)
      by (rewrite E; left).
    apply elem_of_resolved_distances in Hx as (txn & Hin & Hx).
    rewrite (Hnone txn Hin) in Hx. discriminate.
  - intros (txn & Hin & [x Hx]).
    assert (Hne : resolved_distances taxdistdata txns <> []).
    { intros E.
      assert (H : x ∈ resolved_distances taxdistdata txns)
        by (apply elem_of_resolved_distances; eauto).
      rewrite E in H. inversion H. }
    destruct (minimum_or_nonempty 1000 _ Hne) as [Hmin Hle]. split.
    + now apply elem_of_resolved_distances.
    + intros txn' x' Hin' Hx'. apply Hle.
      apply elem_of_resolved_distances. eauto.
Qed.

Lemma example_rxndata_lookup :
  example_rxndata !! "RXN-1" = Some example_candidates.
Proof. apply lookup_singleton_eq. Qed.

Lemma example_candidates_cases (txn : string) :
  txn ∈ example_candidates
  <-> txn = "TAX-5" \/ txn = "TAX-2" \/ txn = "TAX-9".
Proof.
  unfold example_candidates.
  rewrite !elem_of_union, !elem_of_singleton. tauto.
Qed.

Lemma reaction_gets_minimum_witness :
  exists all_rxn_dist : gmap string Z,
    associate_rxn_dist example_rxndata example_taxdistdata = Ok all_rxn_dist
    /\ all_rxn_dist !! "RXN-1" = Some 2.
Proof.
  destruct (reaction_gets_minimum example_rxndata example_taxdistdata
                                  "RXN-1" example_candidates
                                  example_rxndata_lookup)
    as (m & d & Hm & _ & Hd & _ & Hmin).
  exists m. split; [exact Hm |]. rewrite Hd. f_equal.
  destruct Hmin as [(txn & Hin & Htxn) Hle].
  - exists "TAX-2". split; [apply example_candidates_cases; tauto |].
    exists 2. vm_compute. reflexivity.
  - assert (H2 : d <= 2).
    { apply (Hle "TAX-2"); [apply example_candidates_cases; tauto |].
      vm_compute. reflexivity. }
    apply example_candidates_cases in Hin.
    destruct Hin as [-> | [-> | ->]]; vm_compute in Htxn;
      injection Htxn as <-; lia.
Defined.

(** C9: whenever the comprehension over the candidates of a reaction runs
    to its end, the loop of the handler builds the same list, and the
    comprehension can only be left by [KeyError]; so [associate_rxn_dist]
    always returns, and what it returns is the aggregation of the design
    document with the sentinel 1000: for each reaction the least distance
    among the candidates that have an entry, or the sentinel. *)
Theorem fast_path_agrees_with_fallback (rxndata : gmap string (gset string))
        (taxdistdata : gmap string Z) :
  (forall txns : list string,
      match all_distances taxdistdata txns with
      | Ok ds => found_distances taxdistdata txns [] = Ok ds
      | Raise e => e = Builtin KeyError
      end)
  /\ associate_rxn_dist rxndata taxdistdata
     = Ok (aggregate rxndata taxdistdata 1000).
Proof.
  split.
  - intros txns. pose proof (all_distances_spec taxdistdata txns) as H.
    destruct (all_distances taxdistdata txns) as [ds | e]; [| exact H].
    rewrite found_distances_spec. now subst ds.
  - apply associate_rxn_dist_fmap.
Qed.

(** ** Labels and their resolution *)

Lemma lstrip_list_stops (chars : string) (c : ascii) (l : list ascii) :
  in_chars chars c = false -> lstrip_list chars (c :: l) = c :: l.
Proof. intros H. simpl. now rewrite H. Qed.

Lemma list_ascii_of_string_app (s t : string) :
  list_ascii_of_string (s +:+ t)
  = list_ascii_of_string s ++ list_ascii_of_string t.
Proof. induction s as [| c s IH]; simpl; [| rewrite IH]; reflexivity. Qed.

(** On a label made of the tag and an identifier that neither begins nor
    ends with a character of the tag, [strip('TAX-')] leaves the
    identifier. *)
Lemma strip_tag (id : string) :
  tag_free_ends id = true -> strip "TAX-" ("TAX-" +:+ id) = id.
Proof.
  unfold tag_free_ends, strip, lstrip, rstrip. intros H.
  rewrite list_ascii_of_string_app.
  change (list_ascii_of_string "TAX-") with ["T"; "A"; "X"; "-"]%char.
  cbn [app lstrip_list in_chars list_ascii_of_string existsb Ascii.eqb
       Bool.eqb orb].
  destruct (list_ascii_of_string id) as [| c l] eqn:E.
  - cbn. rewrite <- (string_of_list_ascii_of_string id), E. reflexivity.
  - apply andb_true_iff in H as [Hc Hlast].
    apply negb_true_iff in Hc, Hlast.
    rewrite (lstrip_list_stops _ _ _ Hc).
    rewrite list_ascii_of_string_of_list_ascii.
    assert (Hne : c :: l <> []) by discriminate.
    rewrite (app_removelast_last c Hne) at 1.
    rewrite rev_app_distr. cbn [rev app].
    rewrite (lstrip_list_stops _ _ _ Hlast).
    change (List.last (c :: l) c :: rev (removelast (c :: l)))
      with (rev [List.last (c :: l) c] ++ rev (removelast (c :: l))).
    rewrite <- rev_app_distr, rev_involutive, <- (app_removelast_last c Hne).
    rewrite <- E. apply string_of_list_ascii_of_string.
Qed.

Lemma digit_not_in_tag (c : ascii) :
  is_digit c = true -> in_chars "TAX-" c = false.
Proof.
  destruct c as [[] [] [] [] [] [] [] []]; try discriminate; reflexivity.
Qed.

(** Every identifier written in digits is covered by [strip_tag]. *)
Lemma digits_tag_free_ends (id : string) :
  all_digits id = true -> tag_free_ends id = true.
Proof.
  unfold all_digits, tag_free_ends. intros H.
  destruct (list_ascii_of_string id) as [| c l]; [reflexivity |].
  rewrite forallb_forall in H.
  rewrite (digit_not_in_tag c) by (apply H; now left).
  rewrite (digit_not_in_tag (List.last (c :: l) c)); [reflexivity |].
  apply H. destruct (exists_last (l := c :: l)) as (l' & a & E);
    [discriminate |].
  rewrite E, last_last. apply in_or_app. right. now left.
Qed.

(** The identifier kept in the object is the one given to the
    constructor, a string. *)
Lemma init_from_directory_taxid (ncbi : directory) (a_taxid : pyval)
      (t : Taxon) :
  truthy a_taxid = true ->
  init_from_directory ncbi a_taxid PyNone = Ok t -> taxid t = a_taxid.
Proof.
  intros Ht. unfold init_from_directory, bind. rewrite Ht. cbn [negb andb].
  intros H.
  repeat match type of H with
         | match ?x with _ => _ end = _ => destruct x; try discriminate
         end.
  injection H as <-. reflexivity.
Qed.

Lemma resolve_label_taxid (ncbi : directory) (email : pyval) (label : string)
      (t : Taxon) :
  resolve_label ncbi email label = Ok t ->
  taxid t = PyStr (strip "TAX-" label).
Proof.
  unfold resolve_label, Taxon_init, all_info_given.
  cbn [truthy andb]. rewrite andb_false_r. cbn [andb].
  intros H. destruct (truthy (PyStr (strip "TAX-" label))) eqn:E.
  - now apply init_from_directory_taxid in H.
  - unfold init_from_directory in H. rewrite E in H. discriminate.
Qed.

(** What the constructor turns into [TaxonNotFound]: the three exceptions
    it names, raised by the request, and an empty list of records. *)
Lemma resolve_label_not_found (ncbi : directory) (email : pyval)
      (label : string) :
  truthy (PyStr (strip "TAX-" label)) = true ->
  efetch_read ncbi (PyStr (strip "TAX-" label)) = inl HTTPError
  \/ efetch_read ncbi (PyStr (strip "TAX-" label)) = inl TypeError
  \/ efetch_read ncbi (PyStr (strip "TAX-" label)) = inl IndexError
  \/ efetch_read ncbi (PyStr (strip "TAX-" label)) = inr [] ->
  resolve_label ncbi email label = Raise TaxonNotFound.
Proof.
  intros Ht H. unfold resolve_label, Taxon_init, all_info_given.
  cbn [truthy andb]. rewrite andb_false_r. cbn [andb].
  unfold init_from_directory. rewrite Ht. cbn [negb andb bind].
  destruct H as [-> | [-> | [-> | ->]]]; reflexivity.
Qed.

(** One turn of the loop of [turn_taxa_into_taxonomic_info]. *)
Lemma turn_taxa_loop_cons (ncbi : directory) (email : pyval) (elem : string)
      (rest : list string) (tax_info : gmap string Taxon) :
  turn_taxa_loop ncbi (elem :: rest) email tax_info
  = match resolve_label ncbi email elem with
    | Ok taxon => turn_taxa_loop ncbi rest email (<[elem := taxon]> tax_info)
    | Raise TaxonNotFound => turn_taxa_loop ncbi rest email tax_info
    | Raise e => Raise e
    end.
Proof.
  cbn [turn_taxa_loop]. fold (resolve_label ncbi email elem).
  destruct (resolve_label ncbi email elem) as [t | [| | e]]; reflexivity.
Qed.

(** When the loop returns, a label visited holds the taxon built for it,
    if one was built; any other key holds what it held before. *)
Lemma turn_taxa_loop_content (ncbi : directory) (email : pyval)
      (elems : list string) :
  forall (acc m : gmap string Taxon),
    turn_taxa_loop ncbi elems email acc = Ok m ->
    forall label,
      m !! label
      = match resolve_label ncbi email label with
        | Ok t => if decide (label ∈ elems) then Some t else acc !! label
        | Raise _ => acc !! label
        end.
Proof.
  induction elems as [| elem rest IH]; intros acc m Hm label.
  - cbn in Hm. injection Hm as <-.
    destruct (resolve_label ncbi email label); [| reflexivity].
    destruct (decide (label ∈ [])) as [Hin | _]; [| reflexivity].
    inversion Hin.
  - rewrite turn_taxa_loop_cons in Hm.
    destruct (resolve_label ncbi email elem) as [t | e] eqn:E.
    + rewrite (IH _ _ Hm label). destruct (decide (label = elem)) as [-> | Hne].
      * rewrite E, lookup_insert_eq.
        destruct (decide (elem ∈ rest)) as [H1 | H1],
                 (decide (elem ∈ elem :: rest)) as [H2 | H2];
          try reflexivity; exfalso; apply H2; left.
      * rewrite lookup_insert_ne by congruence.
        destruct (resolve_label ncbi email label); [| reflexivity].
        destruct (decide (label ∈ rest)) as [H1 | H1],
                 (decide (label ∈ elem :: rest)) as [H2 | H2];
          try reflexivity; exfalso.
        -- apply H2. now right.
        -- apply elem_of_cons in H2 as [? | ?]; contradiction.
    + destruct e; try discriminate.
      rewrite (IH _ _ Hm label).
      destruct (resolve_label ncbi email label) as [t |] eqn:El;
        [| reflexivity].
      destruct (decide (label ∈ rest)) as [H1 | H1],
               (decide (label ∈ elem :: rest)) as [H2 | H2];
        try reflexivity; exfalso.
      * apply H2. now right.
      * apply elem_of_cons in H2 as [-> | ?]; [congruence | contradiction].
Qed.

(** The loop returns when no label raises anything but [TaxonNotFound]. *)
Lemma turn_taxa_loop_returns (ncbi : directory) (email : pyval)
      (elems : list string) :
  (forall label e,
      label ∈ elems -> resolve_label ncbi email label = Raise e ->
      e = TaxonNotFound) ->
  forall acc, exists m, turn_taxa_loop ncbi elems email acc = Ok m.
Proof.
  induction elems as [| elem rest IH]; intros Hnf acc.
  - eexists. reflexivity.
  - rewrite turn_taxa_loop_cons.
    assert (Hrest : forall label e,
               label ∈ rest -> resolve_label ncbi email label = Raise e ->
               e = TaxonNotFound)
      by (intros label e Hin; apply Hnf; now right).
    destruct (resolve_label ncbi email elem) as [t | e] eqn:E.
    + apply (IH Hrest).
    + rewrite (Hnf elem e (ltac:(left)) E). apply (IH Hrest).
Qed.

(** C4, on the code, at a label whose identifier ends with characters of
    the tag: ["TAX-2XA"] is stripped to ["2"], not to ["2XA"]; the directory
    that knows no ["2XA"] is asked for ["2"], and the label comes back with
    Bacteria. *)
Lemma tag_characters_stripped_from_identifier :
  strip "TAX-" "TAX-2XA" = "2"
  /\ Taxon_init bacteria_only (PyStr "2XA") PyNone PyNone PyNone PyNone PyNone
     = Raise TaxonNotFound
  /\ turn_taxa_into_taxonomic_info bacteria_only tagged_end_labels PyNone
     = Ok tagged_end_info
  /\ tagged_end_info !! "TAX-2XA" = Some fetched_bacteria
  /\ taxid fetched_bacteria = PyStr "2".
Proof.
  split; [reflexivity |]. split; [reflexivity |].
  split; [vm_compute; reflexivity |].
  split; [apply lookup_singleton_eq | reflexivity].
Qed.

(** C4 as the code has it: the identifier passed to the constructor for a
    label is the label with the characters of ["TAX-"] removed from both
    ends, which is the identifier itself for a label made of the tag and an
    identifier that neither begins nor ends with such a character, as is
    every identifier written in digits; the returned dictionary holds under
    the unmodified label, for the labels of the input set and for no other
    key, exactly the taxon built from that identifier, and that taxon keeps
    the identifier. *)
Theorem label_stripped_key_kept (ncbi : directory) (set_of_taxa : gset string)
        (email : pyval) (tax_info : gmap string Taxon) :
  turn_taxa_into_taxonomic_info ncbi set_of_taxa email = Ok tax_info ->
  (forall label t,
      tax_info !! label = Some t
      <-> label ∈ set_of_taxa
          /\ Taxon_init ncbi (PyStr (strip "TAX-" label)) PyNone PyNone PyNone
                        PyNone email = Ok t)
  /\ (forall label t,
         tax_info !! label = Some t -> taxid t = PyStr (strip "TAX-" label))
  /\ (forall label, is_Some (tax_info !! label) -> label ∈ set_of_taxa)
  /\ (forall id,
         tag_free_ends id = true -> strip "TAX-" ("TAX-" +:+ id) = id)
  /\ (forall id, all_digits id = true -> strip "TAX-" ("TAX-" +:+ id) = id)
  /\ (forall id t,
         tag_free_ends id = true ->
         (tax_info !! ("TAX-" +:+ id) = Some t
          <-> ("TAX-" +:+ id) ∈ set_of_taxa
              /\ Taxon_init ncbi (PyStr id) PyNone PyNone PyNone PyNone email
                 = Ok t)
         /\ (tax_info !! ("TAX-" +:+ id) = Some t -> taxid t = PyStr id)).
Proof.
  intros Hm. unfold turn_taxa_into_taxonomic_info in Hm.
  pose proof (turn_taxa_loop_content _ _ _ _ _ Hm) as Hc.
  assert (Hkey : forall label t,
             tax_info !! label = Some t
             <-> label ∈ set_of_taxa
                 /\ Taxon_init ncbi (PyStr (strip "TAX-" label)) PyNone PyNone
                               PyNone PyNone email = Ok t).
  { intros label t. rewrite (Hc label), lookup_empty.
    fold (resolve_label ncbi email label).
    destruct (resolve_label ncbi email label) as [t' | e].
    - destruct (decide (label ∈ elements set_of_taxa)) as [Hin | Hin];
        rewrite elem_of_elements in Hin.
      + split; [intros [= ->]; now split | intros [_ [= ->]]; reflexivity].
      + split; [discriminate | intros [? _]; contradiction].
    - split; [discriminate | intros [_ ?]; discriminate]. }
  assert (Hid : forall label t,
             tax_info !! label = Some t ->
             taxid t = PyStr (strip "TAX-" label)).
  { intros label t Ht. apply Hkey in Ht as [_ Ht].
    now apply (resolve_label_taxid ncbi email). }
  split; [exact Hkey |]. split; [exact Hid |]. split.
  { intros label [t Ht]. now apply Hkey in Ht as [Hin _]. }
  split; [exact strip_tag |]. split.
  { intros id Hd. apply strip_tag. now apply digits_tag_free_ends. }
  intros id t Hfree. pose proof (strip_tag id Hfree) as Hs. split.
  - rewrite (Hkey ("TAX-" +:+ id) t), Hs. reflexivity.
  - intros Ht. specialize (Hid _ _ Ht). now rewrite Hs in Hid.
Qed.

Lemma label_stripped_key_kept_witness :
  turn_taxa_into_taxonomic_info bacteria_only example_labels PyNone
  = Ok {[ "TAX-2" := fetched_bacteria ]}
  /\ strip "TAX-" "TAX-2" = "2"
  /\ ("TAX-2" ∈ example_labels
      /\ Taxon_init bacteria_only (PyStr "2") PyNone PyNone PyNone PyNone
                    PyNone = Ok fetched_bacteria)
  /\ taxid fetched_bacteria = PyStr "2".
Proof.
  assert (Hm : turn_taxa_into_taxonomic_info bacteria_only example_labels
                                             PyNone
               = Ok {[ "TAX-2" := fetched_bacteria ]})
    by (vm_compute; reflexivity).
  destruct (label_stripped_key_kept bacteria_only example_labels PyNone
                                    {[ "TAX-2" := fetched_bacteria ]} Hm)
    as (_ & _ & _ & _ & Hdigits & Hlabel).
  destruct (Hlabel "2" fetched_bacteria eq_refl) as [Hkey Hid].
  split; [exact Hm |].
  split; [exact (Hdigits "2" eq_refl) |].
  split; [apply Hkey, lookup_singleton_eq |].
  apply Hid, lookup_singleton_eq.
Defined.

(** C5, on the code, at a transport failure that is not an HTTP status:
    the constructor does not turn it into [TaxonNotFound], the loop does not
    catch it, and no dictionary is returned. *)
Lemma transport_failure_aborts :
  resolve_label timing_out PyNone "TAX-2" = Raise (Builtin URLError)
  /\ turn_taxa_into_taxonomic_info timing_out {[ "TAX-2" ]} PyNone
     = Raise (Builtin URLError)
  /\ ~ exists tax_info,
         turn_taxa_into_taxonomic_info timing_out {[ "TAX-2" ]} PyNone
         = Ok tax_info.
Proof.
  assert (H : turn_taxa_into_taxonomic_info timing_out {[ "TAX-2" ]} PyNone
              = Raise (Builtin URLError)) by (vm_compute; reflexivity).
  split; [reflexivity |]. split; [exact H |].
  intros [m Hm]. rewrite H in Hm. discriminate.
Qed.

(** A label made of characters of the tag only leaves the empty identifier,
    for which the constructor raises [TaxonInvalidInput]: the loop does not
    catch that either. *)
Lemma tag_only_label_aborts (ncbi : directory) :
  turn_taxa_into_taxonomic_info ncbi {[ "TAX-" ]} PyNone
  = Raise TaxonInvalidInput.
Proof.
  unfold turn_taxa_into_taxonomic_info.
  rewrite elements_singleton. reflexivity.
Qed.

(** An exception of the fetch that the constructor does not name leaves
    it as it is. *)
Lemma resolve_label_other_exception (ncbi : directory) (email : pyval)
      (label : string) (e : lib_exn) :
  truthy (PyStr (strip "TAX-" label)) = true ->
  efetch_read ncbi (PyStr (strip "TAX-" label)) = inl e ->
  e <> HTTPError -> e <> TypeError -> e <> IndexError ->
  resolve_label ncbi email label = Raise (Builtin e).
Proof.
  intros Ht Hf H1 H2 H3. unfold resolve_label, Taxon_init, all_info_given.
  cbn [truthy andb]. rewrite andb_false_r. cbn [andb].
  unfold init_from_directory. rewrite Ht. cbn [negb andb bind]. rewrite Hf.
  destruct e; try contradiction; reflexivity.
Qed.

Lemma resolve_label_empty_identifier (ncbi : directory) (email : pyval)
      (label : string) :
  strip "TAX-" label = EmptyString ->
  resolve_label ncbi email label = Raise TaxonInvalidInput.
Proof. intros Hs. unfold resolve_label. rewrite Hs. reflexivity. Qed.

(** The loop stops at the first label that raises anything but
    [TaxonNotFound], with what that label raised. *)
Lemma turn_taxa_loop_aborts (ncbi : directory) (email : pyval)
      (elems : list string) :
  (exists label e,
      label ∈ elems /\ resolve_label ncbi email label = Raise e
      /\ e <> TaxonNotFound) ->
  forall acc,
  exists label e,
    label ∈ elems /\ resolve_label ncbi email label = Raise e
    /\ e <> TaxonNotFound
    /\ turn_taxa_loop ncbi elems email acc = Raise e.
Proof.
  induction elems as [| elem rest IH]; intros (label & e & Hin & Hl & Hne) acc.
  - inversion Hin.
  - rewrite turn_taxa_loop_cons.
    assert (Hrest : label <> elem ->
                    forall acc',
                    exists label' e',
                      label' ∈ elem :: rest
                      /\ resolve_label ncbi email label' = Raise e'
                      /\ e' <> TaxonNotFound
                      /\ turn_taxa_loop ncbi rest email acc' = Raise e').
    { intros Hneq acc'.
      apply elem_of_cons in Hin as [-> | Hin]; [contradiction |].
      destruct (IH (ex_intro _ label (ex_intro _ e (conj Hin (conj Hl Hne))))
                   acc')
        as (label' & e' & Hin' & Hl' & Hne' & Hloop).
      exists label', e'. split; [now right | tauto]. }
    destruct (resolve_label ncbi email elem) as [t | e0] eqn:E.
    + apply Hrest. intros ->. congruence.
    + destruct (decide (label = elem)) as [-> | Hneq].
      * rewrite E in Hl. injection Hl as ->.
        exists elem, e. split; [left |]. split; [exact E |].
        split; [exact Hne |]. destruct e; [contradiction | reflexivity ..].
      * destruct e0 as [| | b].
        -- now apply Hrest.
        -- exists elem, TaxonInvalidInput. split; [left |].
           split; [exact E |]. split; [discriminate | reflexivity].
        -- exists elem, (Builtin b). split; [left |].
           split; [exact E |]. split; [discriminate | reflexivity].
Qed.

(** C5 as the code has it.  For a label with a non-empty identifier the
    constructor raises [TaxonNotFound] when the fetch raises [HTTPError],
    [TypeError] or [IndexError] or yields no record, and raises the exception
    of the fetch itself when that is any other one; for a label that strips
    to the empty identifier it raises [TaxonInvalidInput].  When no label of
    the set raises anything but [TaxonNotFound],
    [turn_taxa_into_taxonomic_info] returns a dictionary that has no entry
    for the labels that raised it and holds, for every other label of the set
    and for no other key, the taxon built for that label.  When some label of
    the set raises anything else, nothing catches it: no dictionary is
    returned and the call raises such an exception, raised for a label of the
    set. *)
Theorem notfound_labels_dropped (ncbi : directory) (set_of_taxa : gset string)
        (email : pyval) :
  (forall label,
      truthy (PyStr (strip "TAX-" label)) = true ->
      efetch_read ncbi (PyStr (strip "TAX-" label)) = inl HTTPError
      \/ efetch_read ncbi (PyStr (strip "TAX-" label)) = inl TypeError
      \/ efetch_read ncbi (PyStr (strip "TAX-" label)) = inl IndexError
      \/ efetch_read ncbi (PyStr (strip "TAX-" label)) = inr [] ->
      resolve_label ncbi email label = Raise TaxonNotFound)
  /\ (forall label e,
         truthy (PyStr (strip "TAX-" label)) = true ->
         efetch_read ncbi (PyStr (strip "TAX-" label)) = inl e ->
         e <> HTTPError -> e <> TypeError -> e <> IndexError ->
         resolve_label ncbi email label = Raise (Builtin e))
  /\ (forall label,
         strip "TAX-" label = EmptyString ->
         resolve_label ncbi email label = Raise TaxonInvalidInput)
  /\ ((forall label e,
          label ∈ set_of_taxa -> resolve_label ncbi email label = Raise e ->
          e = TaxonNotFound) ->
      exists tax_info,
        turn_taxa_into_taxonomic_info ncbi set_of_taxa email = Ok tax_info
        /\ (forall label,
               label ∈ set_of_taxa ->
               resolve_label ncbi email label = Raise TaxonNotFound ->
               tax_info !! label = None)
        /\ (forall label t,
               tax_info !! label = Some t
               <-> label ∈ set_of_taxa
                   /\ resolve_label ncbi email label = Ok t))
  /\ ((exists label e,
          label ∈ set_of_taxa /\ resolve_label ncbi email label = Raise e
          /\ e <> TaxonNotFound) ->
      exists label e,
        label ∈ set_of_taxa /\ resolve_label ncbi email label = Raise e
        /\ e <> TaxonNotFound
        /\ turn_taxa_into_taxonomic_info ncbi set_of_taxa email = Raise e).
Proof.
  split; [intros label; apply resolve_label_not_found |].
  split; [intros label e; apply resolve_label_other_exception |].
  split; [intros label; apply resolve_label_empty_identifier |].
  unfold turn_taxa_into_taxonomic_info. split.
  - intros Hnf.
    destruct (turn_taxa_loop_returns ncbi email (elements set_of_taxa))
      with (acc := (∅ : gmap string Taxon)) as [m Hm].
    { intros label e Hin. apply Hnf. now apply elem_of_elements. }
    exists m. split; [exact Hm |].
    pose proof (turn_taxa_loop_content _ _ _ _ _ Hm) as Hc. split.
    + intros label _ Hl. now rewrite (Hc label), Hl, lookup_empty.
    + intros label t. rewrite (Hc label), lookup_empty.
      destruct (resolve_label ncbi email label) as [t' | e].
      * destruct (decide (label ∈ elements set_of_taxa)) as [Hin | Hin];
          rewrite elem_of_elements in Hin.
        -- split; [intros [= ->]; now split | intros [_ [= ->]]; reflexivity].
        -- split; [discriminate | intros [? _]; contradiction].
      * split; [discriminate | intros [_ ?]; discriminate].
  - intros (label & e & Hin & Hl & Hne).
    destruct (turn_taxa_loop_aborts ncbi email (elements set_of_taxa))
      with (acc := (∅ : gmap string Taxon))
      as (label' & e' & Hin' & Hl' & Hne' & Hloop).
    { exists label, e. split; [now apply elem_of_elements | tauto]. }
    exists label', e'. split; [now apply elem_of_elements in Hin' | tauto].
Qed.

Lemma notfound_labels_dropped_witness :
  (exists tax_info : gmap string Taxon,
      turn_taxa_into_taxonomic_info bacteria_only example_labels PyNone
      = Ok tax_info
      /\ tax_info !! "TAX-0" = None
      /\ exists t, tax_info !! "TAX-2" = Some t)
  /\ (exists label e,
         label ∈ example_labels
         /\ resolve_label timing_out PyNone label = Raise e
         /\ e <> TaxonNotFound
         /\ turn_taxa_into_taxonomic_info timing_out example_labels PyNone
            = Raise e).
Proof.
  split.
  - assert (Hnf : forall label e,
               label ∈ example_labels ->
               resolve_label bacteria_only PyNone label = Raise e ->
               e = TaxonNotFound).
    { intros label e Hin. unfold example_labels in Hin.
      rewrite elem_of_union, !elem_of_singleton in Hin.
      destruct Hin as [-> | ->]; vm_compute; congruence. }
    destruct (notfound_labels_dropped bacteria_only example_labels PyNone)
      as (_ & _ & _ & Hret & _).
    destruct (Hret Hnf) as (m & Hm & Hdrop & Hkeep).
    exists m. split; [exact Hm |]. split.
    + apply Hdrop; [| vm_compute; reflexivity].
      unfold example_labels. rewrite elem_of_union, !elem_of_singleton. tauto.
    + eexists. apply Hkeep. split; [| vm_compute; reflexivity].
      unfold example_labels. rewrite elem_of_union, !elem_of_singleton. tauto.
  - destruct (notfound_labels_dropped timing_out example_labels PyNone)
      as (_ & _ & _ & _ & Habort).
    apply Habort. exists "TAX-2", (Builtin URLError).
    split; [| split; [reflexivity | discriminate]].
    unfold example_labels. rewrite elem_of_union, !elem_of_singleton. tauto.
Defined.

(** ** Saving and loading *)

(** The saved form of a taxon answers the four keys [read_json] asks
    for. *)
Lemma Taxon_dict_fields (t : Taxon) :
  Taxon_dict t !! "taxid" = Some (taxid t)
  /\ Taxon_dict t !! "scientific_name" = Some (scientific_name t)
  /\ Taxon_dict t !! "lineage_taxa_name" = Some (lineage_taxa_name t)
  /\ Taxon_dict t !! "lineage_taxa_id" = Some (lineage_taxa_id t)
  /\ Taxon_dict t !! "parent_taxid" = Some (parent_taxid t).
Proof.
  unfold Taxon_dict. destruct (dist_to_root t);
    repeat split; vm_compute; reflexivity.
Qed.

Lemma taxon_of_fields_dict (t : Taxon) :
  taxon_of_fields (Taxon_dict t) = reloaded t.
Proof.
  destruct (Taxon_dict_fields t) as (H1 & H2 & H3 & _ & H5).
  unfold taxon_of_fields, reloaded. now rewrite H1, H2, H3, H5.
Qed.

(** On entries saved from fully populated taxa the loop of [read_json]
    never calls the directory and stores, for each, the object made of the
    fields it read. *)
Lemma read_json_loop_saved (ncbi : directory)
      (items : list (string * gmap string pyval)) :
  (forall elem fields,
      (elem, fields) ∈ items ->
      exists t, fields = Taxon_dict t /\ fully_populated t = true) ->
  forall data_obj,
    read_json_loop ncbi items data_obj
    = Ok (foldl (fun a kv => <[kv.1 := taxon_of_fields kv.2]> a)
                data_obj items).
Proof.
  induction items as [| [elem fields] items IH]; intros Hitems data_obj;
    [reflexivity |].
  destruct (Hitems elem fields (ltac:(left))) as (t & -> & Hfull).
  cbn [read_json_loop foldl fst snd]. unfold dict_get.
  destruct (Taxon_dict_fields t) as (H1 & H2 & H3 & _ & H5).
  rewrite H1, H2, H3, H5. cbn [bind].
  unfold fully_populated, all_info_given in Hfull.
  rewrite !andb_true_iff in Hfull.
  destruct Hfull as ((((T1 & T2) & T3) & T5) & T4).
  unfold Taxon_init, all_info_given. rewrite T1, T2, T3, T5. cbn [andb bind].
  assert (Hrest : forall e f,
             (e, f) ∈ items ->
             exists t', f = Taxon_dict t' /\ fully_populated t' = true)
    by (intros e f Hin; apply (Hitems e f); now right).
  rewrite (IH Hrest), taxon_of_fields_dict. reflexivity.
Qed.

(** What loading a saved dictionary of fully populated taxa returns: every
    label is there, with the taxon whose lineage of identifiers has been
    replaced by its lineage of names. *)
Lemma read_json_write_json (ncbi : directory) (data : gmap string Taxon)
      (jsonfile : string)
      (disk : gmap string (gmap string (gmap string pyval))) :
  (forall label t, data !! label = Some t -> fully_populated t = true) ->
  read_json ncbi jsonfile (write_json data jsonfile disk)
  = Ok (reloaded <$> data).
Proof.
  intros Hfull. unfold read_json, write_json. rewrite lookup_insert_eq.
  rewrite read_json_loop_saved.
  - rewrite foldl_insert_map_to_list, <- map_fmap_compose. f_equal.
    apply map_fmap_ext. intros label t _. apply taxon_of_fields_dict.
  - intros elem fields Hin. apply elem_of_map_to_list in Hin.
    rewrite lookup_fmap in Hin.
    destruct (data !! elem) as [t |] eqn:E; [| discriminate].
    injection Hin as <-. exists t. split; [reflexivity |].
    exact (Hfull elem t E).
Qed.

(** So the round trip gives the dictionary back exactly when, in each of
    its taxa, the two lineages are the same value and no distance to the
    root is recorded. *)
Lemma round_trip_iff (ncbi : directory) (data : gmap string Taxon)
      (jsonfile : string)
      (disk : gmap string (gmap string (gmap string pyval))) :
  (forall label t, data !! label = Some t -> fully_populated t = true) ->
  read_json ncbi jsonfile (write_json data jsonfile disk) = Ok data
  <-> forall label t,
      data !! label = Some t ->
      lineage_taxa_id t = lineage_taxa_name t /\ dist_to_root t = None.
Proof.
  intros Hfull. rewrite (read_json_write_json ncbi data jsonfile disk Hfull).
  split.
  - intros [= H] label t Ht.
    assert (Hl : (reloaded <$> data) !! label = Some t) by now rewrite H.
    rewrite lookup_fmap, Ht in Hl. injection Hl as Hl.
    rewrite <- Hl. split; reflexivity.
  - intros H. f_equal. apply map_eq. intros label. rewrite lookup_fmap.
    destruct (data !! label) as [t |] eqn:E; [| reflexivity].
    destruct (H label t E) as [Hid Hd]. cbn. f_equal.
    destruct t as [a b c d e f]. cbn in *. subst. reflexivity.
Qed.

(** C1, on the code: Bacteria, fully populated, saved under its label and
    loaded again comes back with the names of its lineage in the place of the
    identifiers of its lineage, so that the dictionary loaded is not the
    dictionary saved. *)
Theorem saved_lineage_ids_are_lost :
  fully_populated bacteria = true
  /\ read_json unreachable "taxa.json" (write_json example_taxa "taxa.json" ∅)
     = Ok {[ "TAX-2" := reloaded bacteria ]}
  /\ lineage_taxa_id (reloaded bacteria)
     = PyList [PyStr "cellular organisms"; PyStr "Bacteria"]
  /\ lineage_taxa_id bacteria = PyList [PyStr "131567"; PyStr "2"]
  /\ read_json unreachable "taxa.json" (write_json example_taxa "taxa.json" ∅)
     <> Ok example_taxa.
Proof.
  assert (H : read_json unreachable "taxa.json"
                        (write_json example_taxa "taxa.json" ∅)
              = Ok {[ "TAX-2" := reloaded bacteria ]}).
  { rewrite read_json_write_json.
    - unfold example_taxa. now rewrite map_fmap_singleton.
    - intros label t Ht. unfold example_taxa in Ht.
      apply lookup_singleton_Some in Ht as [_ <-]. reflexivity. }
  split; [reflexivity |]. split; [exact H |].
  split; [reflexivity |]. split; [reflexivity |].
  rewrite H. intros E.
  apply (f_equal (fun r : result (gmap string Taxon) =>
                    match r with
                    | Ok m => lineage_taxa_id <$> (m !! "TAX-2")
                    | Raise _ => None
                    end)) in E.
  vm_compute in E. discriminate E.
Qed.

(** * Further properties of the code *)

(** ** The distance, in general *)

Lemma common_prefix_prefix_l (a b : list pyval) :
  common_prefix a b `prefix_of` a.
Proof.
  revert b. induction a as [| x a IH]; intros [| y b]; cbn;
    try apply prefix_nil.
  destruct (py_eq x y); [| apply prefix_nil].
  apply prefix_cons, IH.
Qed.

Lemma common_prefix_prefix_r (a b : list pyval) :
  common_prefix a b `prefix_of` b.
Proof.
  revert b. induction a as [| x a IH]; intros [| y b]; cbn;
    try apply prefix_nil.
  destruct (py_eq x y) eqn:E; [| apply prefix_nil].
  apply py_eq_true_iff in E as ->. apply prefix_cons, IH.
Qed.

Lemma common_prefix_greatest (l a b : list pyval) :
  l `prefix_of` a -> l `prefix_of` b -> l `prefix_of` common_prefix a b.
Proof.
  intros [ka ->] [kb ->]. rewrite common_prefix_app.
  now apply prefix_app_r.
Qed.

Lemma common_prefix_app_r (a k : list pyval) :
  common_prefix a (a ++ k) = a.
Proof.
  induction a as [| x a IH]; [reflexivity |].
  cbn. now rewrite py_eq_refl, IH.
Qed.

Lemma common_prefix_app_l (a k : list pyval) :
  common_prefix (a ++ k) a = a.
Proof.
  induction a as [| x a IH]; [apply common_prefix_nil_r |].
  cbn. now rewrite py_eq_refl, IH.
Qed.

Lemma common_prefix_length (a b : list pyval) :
  (List.length (common_prefix a b) <= List.length a)%nat
  /\ (List.length (common_prefix a b) <= List.length b)%nat.
Proof.
  split; apply prefix_length;
    [apply common_prefix_prefix_l | apply common_prefix_prefix_r].
Qed.

(** The value returned for two lineages held as lists and a target that
    is not the root. *)
Lemma distance_of_lists (query target : Taxon) (penalty : Z)
      (q t : list pyval) :
  py_eq (taxid target) (PyInt 1) = false ->
  lineage_taxa_id query = PyList q ->
  lineage_taxa_id target = PyList t ->
  get_distance_between_two_taxa query target penalty
  = Ok (let c := Z.of_nat (List.length (common_prefix q t)) in
        let up := Z.of_nat (List.length q) - c in
        let down := if negb (Z.eqb up 0)
                    then Z.of_nat (List.length t) - c else 0 in
        up + down * penalty).
Proof.
  intros Hroot Hq Ht. unfold get_distance_between_two_taxa.
  rewrite Hroot, (distance_walk_lists _ _ _ _ Hq Ht). reflexivity.
Qed.

(** The list the walk collects is the longest common prefix of the two
    lineages: a prefix of both, of which every common prefix is a prefix. *)
Theorem walk_finds_longest_common_prefix (query target : Taxon)
        (q t : list pyval) :
  lineage_taxa_id query = PyList q ->
  lineage_taxa_id target = PyList t ->
  exists st,
    distance_walk query target = Ok st
    /\ common_tax_id st `prefix_of` q
    /\ common_tax_id st `prefix_of` t
    /\ (forall l, l `prefix_of` q -> l `prefix_of` t ->
                  l `prefix_of` common_tax_id st).
Proof.
  intros Hq Ht. eexists. split; [apply (distance_walk_lists _ _ _ _ Hq Ht) |].
  cbn [common_tax_id]. split; [apply common_prefix_prefix_l |].
  split; [apply common_prefix_prefix_r |].
  intros l. apply common_prefix_greatest.
Qed.

Lemma walk_finds_longest_common_prefix_witness :
  exists st,
    distance_walk (taxon_of_lineage "C" ["A"; "B"; "C"])
                  (taxon_of_lineage "D" ["A"; "B"; "D"]) = Ok st
    /\ common_tax_id st `prefix_of` [PyStr "A"; PyStr "B"; PyStr "C"]
    /\ common_tax_id st `prefix_of` [PyStr "A"; PyStr "B"; PyStr "D"]
    /\ (forall l,
           l `prefix_of` [PyStr "A"; PyStr "B"; PyStr "C"] ->
           l `prefix_of` [PyStr "A"; PyStr "B"; PyStr "D"] ->
           l `prefix_of` common_tax_id st).
Proof.
  exact (walk_finds_longest_common_prefix
           (taxon_of_lineage "C" ["A"; "B"; "C"])
           (taxon_of_lineage "D" ["A"; "B"; "D"])
           [PyStr "A"; PyStr "B"; PyStr "C"]
           [PyStr "A"; PyStr "B"; PyStr "D"] eq_refl eq_refl).
Defined.

(** With a penalty that is not negative, the distance to a target that is
    not the root lies between 0 and
    [len(query lineage) + len(target lineage) * penalty]. *)
Theorem distance_bounds (query target : Taxon) (penalty : Z)
        (q t : list pyval) :
  py_eq (taxid target) (PyInt 1) = false ->
  lineage_taxa_id query = PyList q ->
  lineage_taxa_id target = PyList t ->
  0 <= penalty ->
  exists d,
    get_distance_between_two_taxa query target penalty = Ok d
    /\ 0 <= d
    /\ d <= Z.of_nat (List.length q) + Z.of_nat (List.length t) * penalty.
Proof.
  intros Hroot Hq Ht Hp. eexists.
  split; [apply (distance_of_lists _ _ _ _ _ Hroot Hq Ht) |].
  destruct (common_prefix_length q t) as [Hl Hr]. cbv zeta.
  destruct (Z.eqb_spec (Z.of_nat (List.length q)
                        - Z.of_nat (List.length (common_prefix q t))) 0);
    cbn [negb]; nia.
Qed.

Lemma distance_bounds_witness :
  exists d,
    get_distance_between_two_taxa (taxon_of_lineage "C" ["A"; "B"; "C"])
                                  (taxon_of_lineage "D" ["A"; "B"; "D"]) 20
    = Ok d
    /\ 0 <= d /\ d <= 3 + 3 * 20.
Proof.
  refine (distance_bounds (taxon_of_lineage "C" ["A"; "B"; "C"])
                          (taxon_of_lineage "D" ["A"; "B"; "D"]) 20
                          [PyStr "A"; PyStr "B"; PyStr "C"]
                          [PyStr "A"; PyStr "B"; PyStr "D"]
                          eq_refl eq_refl eq_refl _).
  lia.
Defined.

(** With a penalty that is not negative, the distance to a target that is
    not the root is 0 exactly when the lineage of the query is a prefix of
    the lineage of the target: the target is the query or one of its
    descendants. *)
Theorem distance_zero_iff_prefix (query target : Taxon) (penalty : Z)
        (q t : list pyval) :
  py_eq (taxid target) (PyInt 1) = false ->
  lineage_taxa_id query = PyList q ->
  lineage_taxa_id target = PyList t ->
  0 <= penalty ->
  get_distance_between_two_taxa query target penalty = Ok 0
  <-> q `prefix_of` t.
Proof.
  intros Hroot Hq Ht Hp.
  rewrite (distance_of_lists _ _ _ _ _ Hroot Hq Ht). cbv zeta.
  destruct (common_prefix_length q t) as [Hl Hr].
  split.
  - intros [= H].
    assert (Hlen : List.length (common_prefix q t) = List.length q).
    { destruct (Z.eqb_spec (Z.of_nat (List.length q)
                            - Z.of_nat (List.length (common_prefix q t))) 0);
        cbn [negb] in H; nia. }
    assert (E : common_prefix q t = q).
    { destruct (common_prefix_prefix_l q t) as [k Hk].
      rewrite Hk in Hlen at 2. rewrite length_app in Hlen.
      destruct k; [now rewrite app_nil_r in Hk | cbn in Hlen; lia]. }
    rewrite <- E. apply common_prefix_prefix_r.
  - intros [k ->]. rewrite common_prefix_app_r, Z.sub_diag. reflexivity.
Qed.

Lemma distance_zero_iff_prefix_witness :
  get_distance_between_two_taxa (taxon_of_lineage "A" ["A"])
                                (taxon_of_lineage "C" ["A"; "B"; "C"]) 20
  = Ok 0
  <-> [PyStr "A"] `prefix_of` [PyStr "A"; PyStr "B"; PyStr "C"].
Proof.
  refine (distance_zero_iff_prefix (taxon_of_lineage "A" ["A"])
                                   (taxon_of_lineage "C" ["A"; "B"; "C"]) 20
                                   [PyStr "A"]
                                   [PyStr "A"; PyStr "B"; PyStr "C"]
                                   eq_refl eq_refl eq_refl _).
  lia.
Defined.

(** The distance is not symmetric: from a taxon to one of its proper
    ancestors it is the number of levels between them, from the ancestor to
    the taxon it is 0. *)
Theorem distance_not_symmetric (descendant ancestor : Taxon) (penalty : Z)
        (a k : list pyval) :
  py_eq (taxid descendant) (PyInt 1) = false ->
  py_eq (taxid ancestor) (PyInt 1) = false ->
  lineage_taxa_id ancestor = PyList a ->
  lineage_taxa_id descendant = PyList (a ++ k) ->
  get_distance_between_two_taxa descendant ancestor penalty
  = Ok (Z.of_nat (List.length k))
  /\ get_distance_between_two_taxa ancestor descendant penalty = Ok 0.
Proof.
  intros Hd Ha Hla Hld. split.
  - rewrite (distance_of_lists _ _ _ _ _ Ha Hld Hla). cbv zeta.
    rewrite common_prefix_app_l, length_app. f_equal.
    destruct (Z.eqb_spec (Z.of_nat (List.length a + List.length k)
                          - Z.of_nat (List.length a)) 0); cbn [negb]; lia.
  - rewrite (distance_of_lists _ _ _ _ _ Hd Hla Hld). cbv zeta.
    rewrite common_prefix_app_r, Z.sub_diag. reflexivity.
Qed.

Lemma distance_not_symmetric_witness :
  get_distance_between_two_taxa (taxon_of_lineage "C" ["A"; "B"; "C"])
                                (taxon_of_lineage "A" ["A"]) 20 = Ok 2
  /\ get_distance_between_two_taxa (taxon_of_lineage "A" ["A"])
                                   (taxon_of_lineage "C" ["A"; "B"; "C"]) 20
     = Ok 0.
Proof.
  exact (distance_not_symmetric (taxon_of_lineage "C" ["A"; "B"; "C"])
                                (taxon_of_lineage "A" ["A"]) 20
                                [PyStr "A"] [PyStr "B"; PyStr "C"]
                                eq_refl eq_refl eq_refl eq_refl).
Defined.

(** Two lineages that differ from their first element on have nothing in
    common: the distance to a target that is not the root is then the whole
    lineage of the query up and the whole lineage of the target down. *)
Theorem disjoint_lineages_distance (query target : Taxon) (penalty : Z)
        (x y : pyval) (q t : list pyval) :
  py_eq (taxid target) (PyInt 1) = false ->
  lineage_taxa_id query = PyList (x :: q) ->
  lineage_taxa_id target = PyList (y :: t) ->
  py_eq x y = false ->
  get_distance_between_two_taxa query target penalty
  = Ok (Z.of_nat (List.length (x :: q))
        + Z.of_nat (List.length (y :: t)) * penalty).
Proof.
  intros Hroot Hq Ht Hxy.
  rewrite (distance_of_lists _ _ _ _ _ Hroot Hq Ht). cbv zeta.
  cbn [common_prefix]. rewrite Hxy. cbn [List.length].
  rewrite Z.sub_0_r. reflexivity.
Qed.

Lemma disjoint_lineages_distance_witness :
  get_distance_between_two_taxa bacteria root_taxon 20 = Ok (2 + 1 * 20).
Proof.
  exact (disjoint_lineages_distance bacteria root_taxon 20
                                    (PyStr "131567") (PyStr "1")
                                    [PyStr "2"] []
                                    eq_refl eq_refl eq_refl eq_refl).
Defined.

(** ** What the constructor builds from the directory *)

Lemma bind_Ok_inv {A B : Type} (m : result A) (k : A -> result B) (b : B) :
  bind m k = Ok b -> exists a, m = Ok a /\ k a = Ok b.
Proof. destruct m as [a | e]; [eauto | discriminate]. Qed.

Lemma try_except_Ok_inv {A : Type} (m : result A) (caught : exn -> bool)
      (h : exn -> result A) (a : A) :
  try_except m caught h = Ok a ->
  m = Ok a \/ exists e, m = Raise e /\ caught e = true /\ h e = Ok a.
Proof.
  destruct m as [a' | e]; cbn; [intros [= ->]; now left |].
  destruct (caught e) eqn:E; [| discriminate]. intros H. right. eauto.
Qed.

Lemma split_semicolon_space_aux_not_nil (s : string) :
  forall cur, split_semicolon_space_aux s cur <> [].
Proof.
  induction s as [| c s IH]; intros cur; [discriminate |].
  cbn [split_semicolon_space_aux].
  destruct c as [[] [] [] [] [] [] [] []]; try apply IH.
  destruct s as [| c' s']; [apply IH |].
  destruct c' as [[] [] [] [] [] [] [] []]; try apply IH. discriminate.
Qed.

(** The shape of what the branch that queries the directory returns. *)
Lemma init_from_directory_shape (ncbi : directory) (a_taxid a_name : pyval)
        (t : Taxon) :
  init_from_directory ncbi a_taxid a_name = Ok t ->
  exists (ids : list pyval) (names : list string),
    lineage_taxa_id t = PyList (ids ++ [taxid t])
    /\ lineage_taxa_name t = PyList (map PyStr names ++ [scientific_name t])
    /\ names <> []
    /\ dist_to_root t
       = Some (if py_eq (taxid t) (PyInt 1)
               then 0
               else Z.of_nat (List.length (ids ++ [taxid t]))).
Proof.
  unfold init_from_directory. intros H.
  apply bind_Ok_inv in H as (self_taxid & _ & H).
  apply bind_Ok_inv in H as (e & _ & H). cbv zeta in H.
  apply bind_Ok_inv in H as (names & Hnames & H).
  apply bind_Ok_inv in H as (parent & _ & H).
  apply bind_Ok_inv in H as (lin & Hlin & H).
  injection H as <-. cbn [taxid lineage_taxa_id lineage_taxa_name
                          scientific_name dist_to_root].
  assert (Hids : exists ids, lin = ids ++ [self_taxid]).
  { apply try_except_Ok_inv in Hlin as [Hlin | (x & _ & _ & [= <-])].
    - apply bind_Ok_inv in Hlin as (ex & _ & Hlin).
      apply bind_Ok_inv in Hlin as (ids & _ & [= <-]). eauto.
    - exists []. reflexivity. }
  destruct Hids as [ids ->].
  destruct (Lineage e) as [s |]; [| discriminate]. injection Hnames as <-.
  exists ids, (split_semicolon_space s).
  split; [reflexivity |]. split; [reflexivity |].
  split; [apply split_semicolon_space_aux_not_nil | reflexivity].
Qed.

(** A taxon the constructor returns is either made of the five given
    fields, all of them true in a test, or built from the directory; in the
    second case its lineage of identifiers is a list ending with its own
    identifier, its lineage of names is a list of at least two elements
    ending with its own name, and its recorded distance to the root is 0 when
    its identifier equals the integer 1 and the length of its lineage of
    identifiers otherwise. *)
Theorem constructed_taxon_shape (ncbi : directory)
        (a_taxid a_name a_lin_name a_lin_id a_parent email : pyval)
        (t : Taxon) :
  Taxon_init ncbi a_taxid a_name a_lin_name a_lin_id a_parent email = Ok t ->
  (fully_populated t = true
   /\ t = {| taxid := a_taxid; scientific_name := a_name;
             lineage_taxa_name := a_lin_name; lineage_taxa_id := a_lin_id;
             parent_taxid := a_parent; dist_to_root := None |})
  \/ (exists (ids : list pyval) (names : list string),
         lineage_taxa_id t = PyList (ids ++ [taxid t])
         /\ lineage_taxa_name t
            = PyList (map PyStr names ++ [scientific_name t])
         /\ names <> []
         /\ dist_to_root t
            = Some (if py_eq (taxid t) (PyInt 1)
                    then 0
                    else Z.of_nat (List.length (ids ++ [taxid t])))).
Proof.
  unfold Taxon_init. intros H.
  destruct (all_info_given a_taxid a_name a_lin_name a_lin_id a_parent) eqn:E.
  - left. injection H as <-. split; [exact E | reflexivity].
  - right. now apply init_from_directory_shape in H.
Qed.

Lemma constructed_taxon_shape_witness :
  (fully_populated fetched_bacteria = true
   /\ fetched_bacteria
      = {| taxid := PyStr "2"; scientific_name := PyNone;
           lineage_taxa_name := PyNone; lineage_taxa_id := PyNone;
           parent_taxid := PyNone; dist_to_root := None |})
  \/ (exists (ids : list pyval) (names : list string),
         lineage_taxa_id fetched_bacteria
         = PyList (ids ++ [taxid fetched_bacteria])
         /\ lineage_taxa_name fetched_bacteria
            = PyList (map PyStr names ++ [scientific_name fetched_bacteria])
         /\ names <> []
         /\ dist_to_root fetched_bacteria
            = Some (if py_eq (taxid fetched_bacteria) (PyInt 1)
                    then 0
                    else Z.of_nat
                           (List.length (ids ++ [taxid fetched_bacteria])))).
Proof.
  exact (constructed_taxon_shape bacteria_only (PyStr "2") PyNone PyNone
                                 PyNone PyNone PyNone fetched_bacteria eq_refl).
Defined.

Lemma lineage_ex_taxids_missing (l : list (option pyval)) :
  None ∈ l -> lineage_ex_taxids l = Raise (Builtin KeyError).
Proof.
  induction l as [| [x |] l IH]; intros Hin.
  - inversion Hin.
  - apply elem_of_cons in Hin as [? | Hin]; [discriminate |].
    cbn. now rewrite (IH Hin).
  - reflexivity.
Qed.

(** When the record has no ['LineageEx'], or one of the elements of its
    ['LineageEx'] has no ['TaxId'], the lineage of identifiers is the taxon's
    own identifier alone: the identifiers of the ancestors that were read are
    dropped too. *)
Theorem lineage_falls_back_to_self (ncbi : directory) (id a_name : pyval)
        (e : entry) (rest : list entry) (s : string) (parent : pyval) :
  truthy id = true ->
  efetch_read ncbi id = inr (e :: rest) ->
  Lineage e = Some s ->
  ParentTaxId e = Some parent ->
  LineageEx e = None \/ (exists l, LineageEx e = Some l /\ None ∈ l) ->
  exists t,
    init_from_directory ncbi id a_name = Ok t
    /\ taxid t = id
    /\ lineage_taxa_id t = PyList [id]
    /\ dist_to_root t = Some (if py_eq id (PyInt 1) then 0 else 1).
Proof.
  intros Hid Hfetch Hlin Hpar Hex. unfold init_from_directory.
  rewrite Hid. cbn [negb andb bind]. rewrite Hfetch. cbn [call bind try_except].
  rewrite Hlin, Hpar. cbn [bind].
  destruct Hex as [-> | (l & -> & Hl)].
  - cbn [bind try_except]. eexists. repeat split; reflexivity.
  - cbn [bind]. rewrite (lineage_ex_taxids_missing l Hl).
    cbn [bind try_except]. eexists. repeat split; reflexivity.
Qed.

Lemma lineage_falls_back_to_self_witness :
  exists t,
    init_from_directory
      {| efetch_read := fun _ =>
           inr [ {| ScientificName := Some (PyStr "cellular organisms");
                    Lineage := Some EmptyString;
                    ParentTaxId := Some (PyStr "1");
                    LineageEx := None |} ];
         esearch_read := fun _ => inr (Some []) |}
      (PyStr "131567") PyNone = Ok t
    /\ taxid t = PyStr "131567"
    /\ lineage_taxa_id t = PyList [PyStr "131567"]
    /\ dist_to_root t = Some 1.
Proof.
  exact (lineage_falls_back_to_self
           {| efetch_read := fun _ =>
                inr [ {| ScientificName := Some (PyStr "cellular organisms");
                         Lineage := Some EmptyString;
                         ParentTaxId := Some (PyStr "1");
                         LineageEx := None |} ];
              esearch_read := fun _ => inr (Some []) |}
           (PyStr "131567") PyNone _ [] EmptyString (PyStr "1")
           eq_refl eq_refl eq_refl eq_refl (or_introl eq_refl)).
Defined.

(** Building a taxon from a name whose search yields an identifier first
    is building it from that identifier: the other arguments play no part. *)
Theorem by_name_is_by_found_id (ncbi : directory)
        (name x a_lin_name a_lin_id a_parent email email' : pyval)
        (others : list pyval) :
  truthy name = true ->
  truthy x = true ->
  esearch_read ncbi name = inr (Some (x :: others)) ->
  Taxon_init ncbi PyNone name a_lin_name a_lin_id a_parent email
  = Taxon_init ncbi x PyNone PyNone PyNone PyNone email'.
Proof.
  intros Hname Hx Hsearch. unfold Taxon_init, all_info_given.
  cbn [truthy andb]. rewrite Hx. cbn [andb].
  unfold init_from_directory, get_taxid_from_name.
  rewrite Hname, Hx, Hsearch. reflexivity.
Qed.

Lemma by_name_is_by_found_id_witness :
  Taxon_init {| efetch_read := efetch_read bacteria_only;
                esearch_read := fun _ => inr (Some [PyStr "2"]) |}
             PyNone (PyStr "Bacteria") PyNone PyNone PyNone PyNone
  = Taxon_init {| efetch_read := efetch_read bacteria_only;
                  esearch_read := fun _ => inr (Some [PyStr "2"]) |}
               (PyStr "2") PyNone PyNone PyNone PyNone PyNone.
Proof.
  exact (by_name_is_by_found_id
           {| efetch_read := efetch_read bacteria_only;
              esearch_read := fun _ => inr (Some [PyStr "2"]) |}
           (PyStr "Bacteria") (PyStr "2") PyNone PyNone PyNone PyNone PyNone
           [] eq_refl eq_refl eq_refl).
Defined.

(** Looking a name up fails in three ways: an exception of the search is
    raised as it is, also the ones a fetch would turn into [TaxonNotFound];
    an answer without ["IdList"] raises [KeyError]; an empty ["IdList"]
    raises [TaxonNotFound]. *)
Theorem search_failures (ncbi : directory)
        (name a_lin_name a_lin_id a_parent email : pyval) :
  truthy name = true ->
  match esearch_read ncbi name with
  | inl e =>
      Taxon_init ncbi PyNone name a_lin_name a_lin_id a_parent email
      = Raise (Builtin e)
  | inr None =>
      Taxon_init ncbi PyNone name a_lin_name a_lin_id a_parent email
      = Raise (Builtin KeyError)
  | inr (Some []) =>
      Taxon_init ncbi PyNone name a_lin_name a_lin_id a_parent email
      = Raise TaxonNotFound
  | inr (Some (_ :: _)) => True
  end.
Proof.
  intros Hname. unfold Taxon_init, all_info_given. cbn [truthy andb].
  unfold init_from_directory, get_taxid_from_name. rewrite Hname.
  cbn [negb andb].
  destruct (esearch_read ncbi name) as [e | [[| x l] |]];
    first [reflexivity | exact I].
Qed.

Lemma search_failures_witness :
  Taxon_init unreachable PyNone (PyStr "Bacteria") PyNone PyNone PyNone PyNone
  = Raise (Builtin HTTPError)
  /\ Taxon_init bacteria_only PyNone (PyStr "Bacteria") PyNone PyNone PyNone
                PyNone
     = Raise TaxonNotFound.
Proof.
  split.
  - exact (search_failures unreachable (PyStr "Bacteria") PyNone PyNone PyNone
                           PyNone eq_refl).
  - exact (search_failures bacteria_only (PyStr "Bacteria") PyNone PyNone
                           PyNone PyNone eq_refl).
Defined.

(** ** More on the resolution of a set of labels *)

(** When the fetch of every label fails in one of the ways the
    constructor turns into [TaxonNotFound], nothing is raised and the
    dictionary returned is empty. *)
Theorem nothing_found_gives_empty (ncbi : directory)
        (set_of_taxa : gset string) (email : pyval) :
  (forall label,
      label ∈ set_of_taxa ->
      truthy (PyStr (strip "TAX-" label)) = true
      /\ (efetch_read ncbi (PyStr (strip "TAX-" label)) = inl HTTPError
          \/ efetch_read ncbi (PyStr (strip "TAX-" label)) = inl TypeError
          \/ efetch_read ncbi (PyStr (strip "TAX-" label)) = inl IndexError
          \/ efetch_read ncbi (PyStr (strip "TAX-" label)) = inr [])) ->
  turn_taxa_into_taxonomic_info ncbi set_of_taxa email = Ok ∅.
Proof.
  intros Hall.
  assert (Hnf : forall label,
             label ∈ elements set_of_taxa ->
             resolve_label ncbi email label = Raise TaxonNotFound).
  { intros label Hin. apply elem_of_elements in Hin.
    destruct (Hall label Hin) as [Ht Hf].
    now apply resolve_label_not_found. }
  unfold turn_taxa_into_taxonomic_info.
  destruct (turn_taxa_loop_returns ncbi email (elements set_of_taxa))
    with (acc := (∅ : gmap string Taxon)) as [m Hm].
  { intros label e Hin He. rewrite (Hnf label Hin) in He. congruence. }
  rewrite Hm. f_equal. apply map_eq. intros label.
  rewrite (turn_taxa_loop_content _ _ _ _ _ Hm label), lookup_empty.
  destruct (resolve_label ncbi email label) as [t | e] eqn:E; [| reflexivity].
  destruct (decide (label ∈ elements set_of_taxa)) as [Hin | _];
    [| reflexivity].
  rewrite (Hnf label Hin) in E. discriminate.
Qed.

Lemma nothing_found_gives_empty_witness :
  turn_taxa_into_taxonomic_info unreachable example_labels PyNone = Ok ∅.
Proof.
  apply (nothing_found_gives_empty unreachable example_labels PyNone).
  intros label Hin. unfold example_labels in Hin.
  rewrite elem_of_union, !elem_of_singleton in Hin.
  destruct Hin as [-> | ->]; (split; [reflexivity | left; reflexivity]).
Defined.

(** Every taxon of the returned dictionary holds as identifier the string
    left of its label, has a lineage of identifiers ending with it, records
    the length of that lineage, never 0, as its distance to the root, and,
    taken as a target, never takes the branch for the root of
    [get_distance_between_two_taxa]. *)
Theorem resolved_taxa_are_never_root (ncbi : directory)
        (set_of_taxa : gset string) (email : pyval)
        (tax_info : gmap string Taxon) (label : string) (t : Taxon) :
  turn_taxa_into_taxonomic_info ncbi set_of_taxa email = Ok tax_info ->
  tax_info !! label = Some t ->
  taxid t = PyStr (strip "TAX-" label)
  /\ (exists ids,
         lineage_taxa_id t = PyList (ids ++ [taxid t])
         /\ dist_to_root t = Some (Z.of_nat (List.length ids) + 1))
  /\ (forall query penalty,
         get_distance_between_two_taxa query t penalty
         = (st <- distance_walk query t ;;
            Ok (up_distance st + down_distance st * penalty))).
Proof.
  intros Hm Ht. unfold turn_taxa_into_taxonomic_info in Hm.
  rewrite (turn_taxa_loop_content _ _ _ _ _ Hm label), lookup_empty in Ht.
  destruct (resolve_label ncbi email label) as [t' | e] eqn:E;
    [| discriminate].
  destruct (decide (label ∈ elements set_of_taxa)); [| discriminate].
  injection Ht as ->.
  pose proof (resolve_label_taxid _ _ _ _ E) as Hid.
  split; [exact Hid |]. split.
  - unfold resolve_label, Taxon_init, all_info_given in E.
    cbn [truthy andb] in E. rewrite andb_false_r in E. cbn [andb] in E.
    destruct (init_from_directory_shape _ _ _ _ E)
      as (ids & names & H1 & _ & _ & H2).
    exists ids. split; [exact H1 |].
    rewrite H2, Hid, py_eq_str_int, length_app. cbn [List.length].
    f_equal. lia.
  - intros query penalty. apply (distance_to_str_taxid _ _ _ _ Hid).
Qed.

Lemma resolved_taxa_are_never_root_witness :
  exists t,
    taxid t = PyStr "2"
    /\ (exists ids,
           lineage_taxa_id t = PyList (ids ++ [taxid t])
           /\ dist_to_root t = Some (Z.of_nat (List.length ids) + 1))
    /\ (forall query penalty,
           get_distance_between_two_taxa query t penalty
           = (st <- distance_walk query t ;;
              Ok (up_distance st + down_distance st * penalty))).
Proof.
  eexists.
  refine (resolved_taxa_are_never_root bacteria_only example_labels PyNone
                                       _ "TAX-2" _ _ _);
    vm_compute; reflexivity.
Defined.

Lemma turn_taxa_loop_invalid (ncbi : directory) (email : pyval)
      (elems : list string) :
  (exists label,
      label ∈ elems
      /\ resolve_label ncbi email label = Raise TaxonInvalidInput) ->
  (forall label e,
      label ∈ elems -> resolve_label ncbi email label = Raise e ->
      e = TaxonNotFound \/ e = TaxonInvalidInput) ->
  forall acc, turn_taxa_loop ncbi elems email acc = Raise TaxonInvalidInput.
Proof.
  induction elems as [| elem rest IH]; intros (label & Hin & Hl) Hall acc.
  - inversion Hin.
  - rewrite turn_taxa_loop_cons.
    assert (Hrest : forall l e,
               l ∈ rest -> resolve_label ncbi email l = Raise e ->
               e = TaxonNotFound \/ e = TaxonInvalidInput)
      by (intros l e Hl'; apply Hall; now right).
    destruct (resolve_label ncbi email elem) as [t | e] eqn:E.
    + apply IH; [| exact Hrest].
      apply elem_of_cons in Hin as [-> | Hin]; [congruence | eauto].
    + destruct (Hall elem e (ltac:(left)) E) as [-> | ->]; [| reflexivity].
      apply IH; [| exact Hrest].
      apply elem_of_cons in Hin as [-> | Hin]; [congruence | eauto].
Qed.

(** A label that consists of characters of the tag only leaves the empty
    identifier; the constructor raises [TaxonInvalidInput] for it, which the
    loop does not catch: when such a label is in the set and no label raises
    anything else than that or [TaxonNotFound], the whole call raises
    [TaxonInvalidInput] and returns no dictionary. *)
Theorem empty_identifier_aborts (ncbi : directory) (set_of_taxa : gset string)
        (email : pyval) (label : string) :
  label ∈ set_of_taxa ->
  strip "TAX-" label = EmptyString ->
  (forall l e,
      l ∈ set_of_taxa -> resolve_label ncbi email l = Raise e ->
      e = TaxonNotFound \/ e = TaxonInvalidInput) ->
  turn_taxa_into_taxonomic_info ncbi set_of_taxa email
  = Raise TaxonInvalidInput.
Proof.
  intros Hin Hs Hall. unfold turn_taxa_into_taxonomic_info.
  apply turn_taxa_loop_invalid.
  - exists label. split; [now apply elem_of_elements |].
    unfold resolve_label. rewrite Hs. reflexivity.
  - intros l e Hl. apply Hall. now apply elem_of_elements.
Qed.

Lemma empty_identifier_aborts_witness :
  turn_taxa_into_taxonomic_info bacteria_only {[ "TAX-2"; "TAX-" ]} PyNone
  = Raise TaxonInvalidInput.
Proof.
  apply (empty_identifier_aborts bacteria_only {[ "TAX-2"; "TAX-" ]} PyNone
                                 "TAX-").
  - rewrite elem_of_union, !elem_of_singleton. tauto.
  - reflexivity.
  - intros l e Hl. rewrite elem_of_union, !elem_of_singleton in Hl.
    destruct Hl as [-> | ->]; vm_compute; intros [= <-]; tauto.
Defined.

(** ** More on saving and loading *)

(** Loading a saved dictionary of fully populated taxa never consults the
    directory and returns a dictionary with the same labels; under each, the
    identifier, the name, the lineage of names and the parent are the saved
    ones, the lineage of identifiers is the saved lineage of names, and no
    distance to the root is recorded. *)
Theorem saved_fields_come_back (ncbi : directory) (data : gmap string Taxon)
        (jsonfile : string)
        (disk : gmap string (gmap string (gmap string pyval))) :
  (forall label t, data !! label = Some t -> fully_populated t = true) ->
  exists loaded,
    read_json ncbi jsonfile (write_json data jsonfile disk) = Ok loaded
    /\ dom loaded = dom data
    /\ (forall label t,
           data !! label = Some t ->
           exists t',
             loaded !! label = Some t'
             /\ taxid t' = taxid t
             /\ scientific_name t' = scientific_name t
             /\ lineage_taxa_name t' = lineage_taxa_name t
             /\ parent_taxid t' = parent_taxid t
             /\ lineage_taxa_id t' = lineage_taxa_name t
             /\ dist_to_root t' = None).
Proof.
  intros Hfull. exists (reloaded <$> data).
  split; [now apply read_json_write_json |].
  split; [apply dom_fmap_L |].
  intros label t Ht. exists (reloaded t).
  rewrite lookup_fmap, Ht. repeat split; reflexivity.
Qed.

Lemma saved_fields_come_back_witness :
  exists loaded,
    read_json unreachable "taxa.json" (write_json example_taxa "taxa.json" ∅)
    = Ok loaded
    /\ dom loaded = dom example_taxa
    /\ exists t',
        loaded !! "TAX-2" = Some t'
        /\ taxid t' = PyStr "2"
        /\ lineage_taxa_id t'
           = PyList [PyStr "cellular organisms"; PyStr "Bacteria"].
Proof.
  destruct (saved_fields_come_back unreachable example_taxa "taxa.json" ∅)
    as (loaded & Hl & Hdom & Hall).
  { intros label t Ht. unfold example_taxa in Ht.
    apply lookup_singleton_Some in Ht as [_ <-]. reflexivity. }
  exists loaded. split; [exact Hl |]. split; [exact Hdom |].
  destruct (Hall "TAX-2" bacteria (lookup_singleton_eq _ _))
    as (t' & H1 & H2 & _ & _ & _ & H6 & _).
  exists t'. repeat split; assumption.
Defined.

Lemma round_trip_iff_witness :
  read_json unreachable "taxa.json" (write_json example_taxa "taxa.json" ∅)
  = Ok example_taxa
  <-> forall label t,
      example_taxa !! label = Some t ->
      lineage_taxa_id t = lineage_taxa_name t /\ dist_to_root t = None.
Proof.
  apply (round_trip_iff unreachable example_taxa "taxa.json" ∅).
  intros label t Ht. unfold example_taxa in Ht.
  apply lookup_singleton_Some in Ht as [_ <-]. reflexivity.
Defined.

(** A document that is not empty and in which every entry lacks one of the
    four keys that are read makes [read_json] raise [KeyError]. *)
Theorem missing_key_raises (ncbi : directory) (jsonfile : string)
        (doc : gmap string (gmap string pyval))
        (disk : gmap string (gmap string (gmap string pyval))) :
  doc <> ∅ ->
  (forall label fields,
      doc !! label = Some fields ->
      fields !! "taxid" = None \/ fields !! "scientific_name" = None
      \/ fields !! "lineage_taxa_name" = None
      \/ fields !! "parent_taxid" = None) ->
  read_json ncbi jsonfile (<[jsonfile := doc]> disk)
  = Raise (Builtin KeyError).
Proof.
  intros Hne Hall. unfold read_json. rewrite lookup_insert_eq.
  destruct (map_to_list doc) as [| [label fields] items] eqn:E.
  - apply map_to_list_empty_iff in E. contradiction.
  - assert (Hin : doc !! label = Some fields).
    { apply elem_of_map_to_list. rewrite E. left. }
    cbn [read_json_loop]. unfold dict_get.
    destruct (Hall label fields Hin) as [H | [H | [H | H]]];
      repeat (match goal with
              | |- context [match ?m !! ?k with _ => _ end] =>
                  destruct (m !! k); cbn [bind]; try discriminate
              end); reflexivity.
Qed.

Lemma missing_key_raises_witness :
  read_json unreachable "taxa.json" (<["taxa.json" := taxid_only_doc]> ∅)
  = Raise (Builtin KeyError).
Proof.
  apply (missing_key_raises unreachable "taxa.json" taxid_only_doc ∅).
  - intros E. apply (f_equal (fun m => m !! "TAX-2")) in E.
    unfold taxid_only_doc in E.
    rewrite lookup_singleton_eq, lookup_empty in E. discriminate.
  - intros label fields H. unfold taxid_only_doc in H.
    apply lookup_singleton_Some in H as [_ <-].
    right. left. reflexivity.
Defined.

Lemma read_json_loop_same_keys (ncbi : directory)
      (g : gmap string pyval -> gmap string pyval)
      (items : list (string * gmap string pyval)) :
  (forall fields,
      g fields !! "taxid" = fields !! "taxid"
      /\ g fields !! "scientific_name" = fields !! "scientific_name"
      /\ g fields !! "lineage_taxa_name" = fields !! "lineage_taxa_name"
      /\ g fields !! "parent_taxid" = fields !! "parent_taxid") ->
  forall data_obj,
    read_json_loop ncbi (prod_map id g <$> items) data_obj
    = read_json_loop ncbi items data_obj.
Proof.
  intros Hg. induction items as [| [elem fields] items IH]; intros data_obj;
    [reflexivity |].
  cbn [fmap list_fmap prod_map fst snd id read_json_loop]. unfold dict_get.
  destruct (Hg fields) as (-> & -> & -> & ->).
  destruct (fields !! "taxid"); [| reflexivity].
  destruct (fields !! "scientific_name"); [| reflexivity].
  destruct (fields !! "lineage_taxa_name"); [| reflexivity].
  destruct (fields !! "parent_taxid"); [| reflexivity].
  cbn [bind].
  destruct (Taxon_init ncbi p p0 p1 p1 p2 PyNone); [| reflexivity].
  cbn [bind]. apply IH.
Qed.

(** [read_json] never looks at what is saved under ["lineage_taxa_id"],
    or under any key other than the four it reads: a change of the entries
    that leaves these four alone changes nothing of what is loaded or
    raised. *)
Theorem saved_lineage_ids_are_ignored (ncbi : directory) (jsonfile : string)
        (g : gmap string pyval -> gmap string pyval)
        (doc : gmap string (gmap string pyval))
        (disk : gmap string (gmap string (gmap string pyval))) :
  (forall fields,
      g fields !! "taxid" = fields !! "taxid"
      /\ g fields !! "scientific_name" = fields !! "scientific_name"
      /\ g fields !! "lineage_taxa_name" = fields !! "lineage_taxa_name"
      /\ g fields !! "parent_taxid" = fields !! "parent_taxid") ->
  read_json ncbi jsonfile (<[jsonfile := g <$> doc]> disk)
  = read_json ncbi jsonfile (<[jsonfile := doc]> disk).
Proof.
  intros Hg. unfold read_json. rewrite !lookup_insert_eq.
  rewrite map_to_list_fmap. now apply read_json_loop_same_keys.
Qed.

Lemma saved_lineage_ids_are_ignored_witness :
  read_json unreachable "taxa.json"
            (<["taxa.json" :=
                 delete "lineage_taxa_id" <$> (Taxon_dict <$> example_taxa)]> ∅)
  = read_json unreachable "taxa.json"
              (<["taxa.json" := Taxon_dict <$> example_taxa]> ∅).
Proof.
  apply (saved_lineage_ids_are_ignored unreachable "taxa.json"
                                       (delete "lineage_taxa_id")).
  intros fields. repeat split; now apply lookup_delete_ne.
Defined.

Lemma read_json_loop_other_keys (ncbi : directory)
      (items : list (string * gmap string pyval)) :
  forall (acc m : gmap string Taxon) (k : string),
    read_json_loop ncbi items acc = Ok m ->
    k ∉ items.*1 ->
    m !! k = acc !! k.
Proof.
  induction items as [| [elem fields] items IH]; intros acc m k Hm Hk.
  - cbn in Hm. now injection Hm as <-.
  - cbn [read_json_loop] in Hm.
    repeat (apply bind_Ok_inv in Hm as (? & _ & Hm)).
    cbn [fmap list_fmap fst] in Hk. apply not_elem_of_cons in Hk as [Hne Hk].
    rewrite (IH _ _ _ Hm Hk). now apply lookup_insert_ne.
Qed.

Lemma read_json_loop_content (ncbi : directory)
      (items : list (string * gmap string pyval)) :
  forall (acc m : gmap string Taxon),
    read_json_loop ncbi items acc = Ok m ->
    NoDup items.*1 ->
    forall label fields,
      (label, fields) ∈ items ->
      exists a_taxid a_name a_lin_name a_parent t,
        fields !! "taxid" = Some a_taxid
        /\ fields !! "scientific_name" = Some a_name
        /\ fields !! "lineage_taxa_name" = Some a_lin_name
        /\ fields !! "parent_taxid" = Some a_parent
        /\ Taxon_init ncbi a_taxid a_name a_lin_name a_lin_name a_parent
                      PyNone = Ok t
        /\ m !! label = Some t.
Proof.
  induction items as [| [elem fields0] items IH];
    intros acc m Hm Hnd label fields Hin.
  - inversion Hin.
  - cbn [fmap list_fmap fst] in Hnd. apply NoDup_cons in Hnd as [Hfresh Hnd].
    apply elem_of_cons in Hin as [[= -> ->] | Hin].
    + cbn [read_json_loop] in Hm. unfold dict_get in Hm.
      destruct (fields0 !! "taxid") as [a1 |]; [| discriminate].
      destruct (fields0 !! "scientific_name") as [a2 |]; [| discriminate].
      destruct (fields0 !! "lineage_taxa_name") as [a3 |]; [| discriminate].
      destruct (fields0 !! "parent_taxid") as [a5 |]; [| discriminate].
      cbn [bind] in Hm.
      destruct (Taxon_init ncbi a1 a2 a3 a3 a5 PyNone) as [t |] eqn:E;
        [| discriminate].
      cbn [bind] in Hm. exists a1, a2, a3, a5, t.
      repeat (split; [reflexivity |]). split; [exact E |].
      rewrite (read_json_loop_other_keys _ _ _ _ _ Hm Hfresh).
      apply lookup_insert_eq.
    + cbn [read_json_loop] in Hm.
      repeat (apply bind_Ok_inv in Hm as (? & _ & Hm)).
      apply (IH _ _ Hm Hnd label fields Hin).
Qed.

(** When loading succeeds, each entry of the document holds the four keys
    and its label holds the taxon the constructor makes of their values; if
    one of these values is false in a test, that taxon is not the saved one
    but the one fetched from the directory for the saved identifier and
    name. *)
Theorem falsy_saved_field_is_refetched (ncbi : directory) (jsonfile : string)
        (doc : gmap string (gmap string pyval))
        (disk : gmap string (gmap string (gmap string pyval)))
        (loaded : gmap string Taxon) (label : string)
        (fields : gmap string pyval) :
  read_json ncbi jsonfile (<[jsonfile := doc]> disk) = Ok loaded ->
  doc !! label = Some fields ->
  exists a_taxid a_name a_lin_name a_parent t,
    fields !! "taxid" = Some a_taxid
    /\ fields !! "scientific_name" = Some a_name
    /\ fields !! "lineage_taxa_name" = Some a_lin_name
    /\ fields !! "parent_taxid" = Some a_parent
    /\ loaded !! label = Some t
    /\ (truthy a_taxid && truthy a_name && truthy a_lin_name
        && truthy a_parent = true ->
        t = taxon_of_fields fields)
    /\ (truthy a_taxid && truthy a_name && truthy a_lin_name
        && truthy a_parent = false ->
        init_from_directory ncbi a_taxid a_name = Ok t).
Proof.
  intros Hl Hdoc. unfold read_json in Hl. rewrite lookup_insert_eq in Hl.
  destruct (read_json_loop_content ncbi _ _ _ Hl (NoDup_fst_map_to_list doc)
                                   label fields)
    as (a1 & a2 & a3 & a5 & t & H1 & H2 & H3 & H5 & Ht & Hm).
  { now apply elem_of_map_to_list. }
  exists a1, a2, a3, a5, t. repeat (split; [assumption |]).
  unfold Taxon_init, all_info_given in Ht. split; intros Hb.
  - rewrite !andb_true_iff in Hb. destruct Hb as [[[T1 T2] T3] T5].
    rewrite T1, T2, T3, T5 in Ht. cbn [andb] in Ht. injection Ht as <-.
    unfold taxon_of_fields. now rewrite H1, H2, H3, H5.
  - assert (E : truthy a1 && truthy a2 && truthy a3 && truthy a5 && truthy a3
                = false) by (rewrite Hb; reflexivity).
    now rewrite E in Ht.
Qed.

Lemma falsy_saved_field_is_refetched_witness :
  read_json bacteria_only "taxa.json" (<["taxa.json" := incomplete_doc]> ∅)
  = Ok {[ "TAX-2" := fetched_bacteria ]}
  /\ init_from_directory bacteria_only (PyStr "2") (PyStr "Bacteria")
     = Ok fetched_bacteria.
Proof.
  assert (Hl : read_json bacteria_only "taxa.json"
                         (<["taxa.json" := incomplete_doc]> ∅)
               = Ok {[ "TAX-2" := fetched_bacteria ]})
    by (vm_compute; reflexivity).
  split; [exact Hl |].
  destruct (falsy_saved_field_is_refetched
              bacteria_only "taxa.json" incomplete_doc ∅
              {[ "TAX-2" := fetched_bacteria ]} "TAX-2"
              (Taxon_dict incomplete_bacteria) Hl (lookup_singleton_eq _ _))
    as (a1 & a2 & a3 & a5 & t' & H1 & H2 & H3 & H5 & Ht & _ & Hre).
  vm_compute in H1, H2, H3, H5. injection H1 as <-. injection H2 as <-.
  injection H3 as <-. injection H5 as <-.
  rewrite lookup_singleton_eq in Ht. injection Ht as <-.
  apply Hre. reflexivity.
Defined.

(** ** More on the aggregation *)

Lemma resolved_distances_nil (taxdistdata : gmap string Z)
      (txns : gset string) :
  (forall txn, txn ∈ txns -> taxdistdata !! txn = None) ->
  resolved_distances taxdistdata txns = [].
Proof.
  intros Hnone.
  destruct (resolved_distances taxdistdata txns) as [| x l] eqn:E;
    [reflexivity | exfalso].
  assert (Hx : x ∈ resolved_distances taxdistdata txns) by (rewrite E; left).
  apply elem_of_resolved_distances in Hx as (txn & Hin & Hx).
  rewrite (Hnone txn Hin) in Hx. discriminate.
Qed.

(** When no candidate of any reaction has a distance (no distance at all,
    or reactions without candidates), every reaction gets 1000. *)
Theorem no_distance_gives_sentinel_everywhere
        (rxndata : gmap string (gset string)) (taxdistdata : gmap string Z) :
  (forall rxn txns txn,
      rxndata !! rxn = Some txns -> txn ∈ txns ->
      taxdistdata !! txn = None) ->
  associate_rxn_dist rxndata taxdistdata
  = Ok ((fun _ => 1000) <$> rxndata).
Proof.
  intros Hnone. rewrite associate_rxn_dist_fmap. f_equal.
  apply map_fmap_ext. intros rxn txns Hrxn. cbn.
  rewrite resolved_distances_nil; [reflexivity |].
  intros txn. apply (Hnone rxn txns txn Hrxn).
Qed.

Lemma no_distance_gives_sentinel_everywhere_witness :
  associate_rxn_dist example_rxndata ∅ = Ok ((fun _ => 1000) <$> example_rxndata).
Proof.
  apply (no_distance_gives_sentinel_everywhere example_rxndata ∅).
  intros rxn txns txn _ _. apply lookup_empty.
Defined.

(** A reaction that has a candidate with a distance can only get a smaller
    or equal value when it is given more candidates.  (Without such a
    candidate its value is 1000, and a new candidate farther than 1000 away
    makes it larger.) *)
Theorem more_candidates_never_farther
        (rxndata rxndata' : gmap string (gset string))
        (taxdistdata : gmap string Z) (rxn : string) (txns txns' : gset string) :
  rxndata !! rxn = Some txns ->
  rxndata' !! rxn = Some txns' ->
  txns ⊆ txns' ->
  (exists txn, txn ∈ txns /\ is_Some (taxdistdata !! txn)) ->
  exists (m m' : gmap string Z) (d d' : Z),
    associate_rxn_dist rxndata taxdistdata = Ok m
    /\ associate_rxn_dist rxndata' taxdistdata = Ok m'
    /\ m !! rxn = Some d
    /\ m' !! rxn = Some d'
    /\ d' <= d.
Proof.
  intros Hrxn Hrxn' Hsub (txn & Hin & [x Hx]).
  do 4 eexists. split; [apply associate_rxn_dist_fmap |].
  split; [apply associate_rxn_dist_fmap |].
  split; [rewrite lookup_fmap, Hrxn; reflexivity |].
  split; [rewrite lookup_fmap, Hrxn'; reflexivity |].
  assert (Hne : resolved_distances taxdistdata txns <> []).
  { intros E.
    assert (H : x ∈ resolved_distances taxdistdata txns)
      by (apply elem_of_resolved_distances; eauto).
    rewrite E in H. inversion H. }
  destruct (minimum_or_nonempty 1000 _ Hne) as [Hmin _].
  apply elem_of_resolved_distances in Hmin as (txn0 & Hin0 & Hd).
  assert (Hin' : minimum_or 1000 (resolved_distances taxdistdata txns)
                 ∈ resolved_distances taxdistdata txns').
  { apply elem_of_resolved_distances. exists txn0. split; [| exact Hd].
    now apply Hsub. }
  assert (Hne' : resolved_distances taxdistdata txns' <> []).
  { intros E. rewrite E in Hin'. inversion Hin'. }
  destruct (minimum_or_nonempty 1000 _ Hne') as [_ Hle].
  now apply Hle.
Qed.

Lemma more_candidates_never_farther_witness :
  exists (m m' : gmap string Z) (d d' : Z),
    associate_rxn_dist example_rxndata example_taxdistdata_more = Ok m
    /\ associate_rxn_dist example_rxndata_more example_taxdistdata_more = Ok m'
    /\ m !! "RXN-1" = Some d
    /\ m' !! "RXN-1" = Some d'
    /\ d' <= d.
Proof.
  apply (more_candidates_never_farther
           example_rxndata example_rxndata_more example_taxdistdata_more
           "RXN-1" example_candidates (example_candidates ∪ {[ "TAX-1" ]})).
  - apply lookup_singleton_eq.
  - apply lookup_singleton_eq.
  - apply union_subseteq_l.
  - exists "TAX-2". split; [apply example_candidates_cases; tauto |].
    exists 2. vm_compute. reflexivity.
Defined.

Lemma minimum_or_same_elements (sentinel : Z) (l l' : list Z) :
  (forall x, x ∈ l <-> x ∈ l') ->
  minimum_or sentinel l = minimum_or sentinel l'.
Proof.
  intros Hsame.
  destruct l as [| a l0] eqn:El, l' as [| a' l0'] eqn:El'.
  - reflexivity.
  - exfalso. assert (H : a' ∈ @nil Z) by (apply Hsame; left). inversion H.
  - exfalso. assert (H : a ∈ @nil Z) by (apply Hsame; left). inversion H.
  - destruct (minimum_or_nonempty sentinel (a :: l0)) as [Hin Hle];
      [discriminate |].
    destruct (minimum_or_nonempty sentinel (a' :: l0')) as [Hin' Hle'];
      [discriminate |].
    apply Hsame in Hin. apply Hsame in Hin'.
    specialize (Hle _ Hin'). specialize (Hle' _ Hin). lia.
Qed.

(** Candidates without a distance are as good as absent: two sets of
    candidates that have the same members among the labels with a distance
    get the same value. *)
Theorem unresolved_candidates_do_not_count
        (rxndata rxndata' : gmap string (gset string))
        (taxdistdata : gmap string Z) (rxn rxn' : string)
        (txns txns' : gset string) :
  rxndata !! rxn = Some txns ->
  rxndata' !! rxn' = Some txns' ->
  (forall txn, is_Some (taxdistdata !! txn) -> txn ∈ txns <-> txn ∈ txns') ->
  exists (m m' : gmap string Z) (d : Z),
    associate_rxn_dist rxndata taxdistdata = Ok m
    /\ associate_rxn_dist rxndata' taxdistdata = Ok m'
    /\ m !! rxn = Some d
    /\ m' !! rxn' = Some d.
Proof.
  intros Hrxn Hrxn' Hsame. do 3 eexists.
  split; [apply associate_rxn_dist_fmap |].
  split; [apply associate_rxn_dist_fmap |].
  split; [rewrite lookup_fmap, Hrxn; reflexivity |].
  rewrite lookup_fmap, Hrxn'. cbn. f_equal.
  apply minimum_or_same_elements. intros x.
  rewrite !elem_of_resolved_distances.
  split; intros (txn & Hin & Hx); exists txn; (split; [| exact Hx]);
    apply (Hsame txn); eauto.
Qed.

Lemma unresolved_candidates_do_not_count_witness :
  exists (m m' : gmap string Z) (d : Z),
    associate_rxn_dist example_rxndata example_taxdistdata = Ok m
    /\ associate_rxn_dist example_rxndata_more example_taxdistdata = Ok m'
    /\ m !! "RXN-1" = Some d
    /\ m' !! "RXN-1" = Some d.
Proof.
  apply (unresolved_candidates_do_not_count
           example_rxndata example_rxndata_more example_taxdistdata
           "RXN-1" "RXN-1" example_candidates
           (example_candidates ∪ {[ "TAX-1" ]})).
  - apply lookup_singleton_eq.
  - apply lookup_singleton_eq.
  - intros txn [x Hx]. rewrite elem_of_union, elem_of_singleton.
    split; [tauto | intros [H | ->]; [exact H |]].
    vm_compute in Hx. discriminate.
Defined.

(** ** The distances from an organism *)

(** One turn of the loop of [distance_org_taxa]. *)
Lemma distance_org_loop_cons (txn : string) (rest : list string)
      (target_orga : Taxon) (taxodic : gmap string Taxon)
      (acc : gmap string Z) :
  distance_org_loop (txn :: rest) target_orga taxodic acc
  = match taxodic !! txn with
    | None => distance_org_loop rest target_orga taxodic acc
    | Some other =>
        match get_distance_between_two_taxa target_orga other 20 with
        | Ok d => distance_org_loop rest target_orga taxodic (<[txn := d]> acc)
        | Raise (Builtin KeyError) =>
            distance_org_loop rest target_orga taxodic acc
        | Raise e => Raise e
        end
    end.
Proof.
  cbn [distance_org_loop]. unfold dict_get.
  destruct (taxodic !! txn) as [other |]; [| reflexivity]. cbn [bind].
  destruct (get_distance_between_two_taxa target_orga other 20)
    as [d | [| | []]]; reflexivity.
Qed.

Lemma distance_org_loop_content (taxa : list string) (target_orga : Taxon)
      (taxodic : gmap string Taxon) :
  forall (acc m : gmap string Z),
    distance_org_loop taxa target_orga taxodic acc = Ok m ->
    forall label,
      m !! label
      = match taxodic !! label with
        | Some other =>
            match get_distance_between_two_taxa target_orga other 20 with
            | Ok d => if decide (label ∈ taxa) then Some d else acc !! label
            | Raise _ => acc !! label
            end
        | None => acc !! label
        end.
Proof.
  induction taxa as [| txn rest IH]; intros acc m Hm label.
  - cbn in Hm. injection Hm as <-.
    destruct (taxodic !! label) as [other |]; [| reflexivity].
    destruct (get_distance_between_two_taxa target_orga other 20);
      [| reflexivity].
    destruct (decide (label ∈ [])) as [Hin | _]; [inversion Hin | reflexivity].
  - rewrite distance_org_loop_cons in Hm.
    assert (Hskip : forall m',
               distance_org_loop rest target_orga taxodic acc = Ok m' ->
               (taxodic !! txn = None
                \/ exists other e,
                    taxodic !! txn = Some other
                    /\ get_distance_between_two_taxa target_orga other 20
                       = Raise e) ->
               m' !! label
               = match taxodic !! label with
                 | Some other =>
                     match get_distance_between_two_taxa target_orga other 20
                     with
                     | Ok d => if decide (label ∈ txn :: rest)
                               then Some d else acc !! label
                     | Raise _ => acc !! label
                     end
                 | None => acc !! label
                 end).
    { intros m' Hm' Hbad. rewrite (IH _ _ Hm' label).
      destruct (taxodic !! label) as [other |] eqn:El; [| reflexivity].
      destruct (get_distance_between_two_taxa target_orga other 20)
        as [d |] eqn:Ed; [| reflexivity].
      destruct (decide (label ∈ rest)) as [H1 | H1],
               (decide (label ∈ txn :: rest)) as [H2 | H2];
        try reflexivity; exfalso.
      - apply H2. now right.
      - apply elem_of_cons in H2 as [-> | ?]; [| contradiction].
        destruct Hbad as [Hn | (o & e & Ho & He)]; [congruence |].
        rewrite El in Ho. injection Ho as <-. congruence. }
    destruct (taxodic !! txn) as [other |] eqn:Et.
    + destruct (get_distance_between_two_taxa target_orga other 20)
        as [d | e] eqn:Ed.
      * rewrite (IH _ _ Hm label).
        destruct (decide (label = txn)) as [-> | Hne].
        -- rewrite Et, Ed, lookup_insert_eq.
           destruct (decide (txn ∈ rest)) as [H1 | H1],
                    (decide (txn ∈ txn :: rest)) as [H2 | H2];
             try reflexivity; exfalso; apply H2; left.
        -- rewrite lookup_insert_ne by congruence.
           destruct (taxodic !! label) as [o |]; [| reflexivity].
           destruct (get_distance_between_two_taxa target_orga o 20);
             [| reflexivity].
           destruct (decide (label ∈ rest)) as [H1 | H1],
                    (decide (label ∈ txn :: rest)) as [H2 | H2];
             try reflexivity; exfalso.
           ++ apply H2. now right.
           ++ apply elem_of_cons in H2 as [? | ?]; contradiction.
      * destruct e as [| | []]; try discriminate.
        apply (Hskip m Hm). right. eauto.
    + apply (Hskip m Hm). now left.
Qed.

Lemma distance_org_loop_returns (taxa : list string) (target_orga : Taxon)
      (taxodic : gmap string Taxon) :
  (forall label other,
      label ∈ taxa -> taxodic !! label = Some other ->
      exists d, get_distance_between_two_taxa target_orga other 20 = Ok d) ->
  forall acc, exists m, distance_org_loop taxa target_orga taxodic acc = Ok m.
Proof.
  induction taxa as [| txn rest IH]; intros Hd acc.
  - eexists. reflexivity.
  - rewrite distance_org_loop_cons.
    assert (Hrest : forall label other,
               label ∈ rest -> taxodic !! label = Some other ->
               exists d,
                 get_distance_between_two_taxa target_orga other 20 = Ok d)
      by (intros label other Hin; apply Hd; now right).
    destruct (taxodic !! txn) as [other |] eqn:Et; [| apply (IH Hrest)].
    destruct (Hd txn other (ltac:(left)) Et) as [d ->]. apply (IH Hrest).
Qed.

(** When the organism is found and the distance to every known taxon of
    the set can be computed, [distance_org_taxa] returns a dictionary that
    holds, for each label of the set that the dictionary of taxa knows and
    for no other key, the distance from the organism with penalty 20,
    whatever [penalty_price] it was called with. *)
Theorem distance_org_taxa_entries (ncbi : directory) (organism : pyval)
        (taxaset : gset string) (taxodic : gmap string Taxon)
        (email : pyval) (penalty_price : Z) (target_orga : Taxon) :
  Taxon_init ncbi PyNone organism PyNone PyNone PyNone email
  = Ok target_orga ->
  (forall label other,
      label ∈ taxaset -> taxodic !! label = Some other ->
      exists d, get_distance_between_two_taxa target_orga other 20 = Ok d) ->
  exists taxdist_dic,
    distance_org_taxa ncbi organism taxaset taxodic email penalty_price
    = Ok taxdist_dic
    /\ (forall label d,
           taxdist_dic !! label = Some d
           <-> label ∈ taxaset
               /\ exists other,
                   taxodic !! label = Some other
                   /\ get_distance_between_two_taxa target_orga other 20
                      = Ok d).
Proof.
  intros Horg Hd. unfold distance_org_taxa. rewrite Horg. cbn [bind].
  destruct (distance_org_loop_returns (elements taxaset) target_orga taxodic)
    with (acc := (∅ : gmap string Z)) as [m Hm].
  { intros label other Hin. apply Hd. now apply elem_of_elements. }
  exists m. split; [exact Hm |]. intros label d.
  rewrite (distance_org_loop_content _ _ _ _ _ Hm label), lookup_empty.
  destruct (taxodic !! label) as [other |] eqn:Et.
  - destruct (get_distance_between_two_taxa target_orga other 20)
      as [d' | e] eqn:Ed.
    + destruct (decide (label ∈ elements taxaset)) as [Hin | Hin];
        rewrite elem_of_elements in Hin.
      * split.
        -- intros [= ->]. split; [exact Hin |].
           exists other. split; [reflexivity | exact Ed].
        -- intros (_ & o & Ho & Hd'). injection Ho as <-.
           rewrite Ed in Hd'. now injection Hd' as ->.
      * split; [discriminate | intros [? _]; contradiction].
    + split; [discriminate |]. intros (_ & o & Ho & Hd').
      injection Ho as <-. rewrite Ed in Hd'. discriminate.
  - split; [discriminate |]. intros (_ & o & Ho & _). discriminate.
Qed.

Lemma distance_org_taxa_entries_witness :
  exists taxdist_dic,
    distance_org_taxa bacteria_by_name (PyStr "Bacteria") example_labels
                      example_taxa PyNone 5
    = Ok taxdist_dic
    /\ taxdist_dic !! "TAX-2" = Some 0
    /\ taxdist_dic !! "TAX-0" = None.
Proof.
  destruct (distance_org_taxa_entries
              bacteria_by_name (PyStr "Bacteria") example_labels example_taxa
              PyNone 5 fetched_bacteria eq_refl)
    as (m & Hm & Hall).
  { intros label other _ Ho. unfold example_taxa in Ho.
    apply lookup_singleton_Some in Ho as [_ <-]. exists 0. reflexivity. }
  exists m. split; [exact Hm |]. split.
  - apply Hall. split.
    + unfold example_labels. rewrite elem_of_union, !elem_of_singleton. tauto.
    + exists bacteria. split; [apply lookup_singleton_eq | reflexivity].
  - destruct (m !! "TAX-0") as [d |] eqn:E; [| reflexivity].
    apply Hall in E as (_ & o & Ho & _). vm_compute in Ho. discriminate.
Defined.

(** The organism is looked up before anything else: an empty name raises
    [TaxonInvalidInput] and a name the search does not know raises
    [TaxonNotFound], whatever the set and the dictionary of taxa. *)
Theorem unknown_organism_aborts (ncbi : directory) (organism : pyval)
        (taxaset : gset string) (taxodic : gmap string Taxon)
        (email : pyval) (penalty_price : Z) :
  truthy organism = false
  \/ esearch_read ncbi organism = inr (Some []) ->
  distance_org_taxa ncbi organism taxaset taxodic email penalty_price
  = Raise (if truthy organism then TaxonNotFound else TaxonInvalidInput).
Proof.
  intros H. unfold distance_org_taxa, Taxon_init, all_info_given.
  cbn [truthy andb]. unfold init_from_directory, get_taxid_from_name.
  cbn [truthy negb andb].
  destruct (truthy organism) eqn:E; cbn [negb]; [| reflexivity].
  destruct H as [? | ->]; [discriminate | reflexivity].
Qed.

Lemma unknown_organism_aborts_witness :
  distance_org_taxa bacteria_by_name (PyStr "Archaea") example_labels
                    example_taxa PyNone 20
  = Raise TaxonNotFound
  /\ distance_org_taxa bacteria_by_name (PyStr EmptyString) example_labels
                       example_taxa PyNone 20
     = Raise TaxonInvalidInput.
Proof.
  split.
  - exact (unknown_organism_aborts bacteria_by_name (PyStr "Archaea")
                                   example_labels example_taxa PyNone 20
                                   (or_intror eq_refl)).
  - exact (unknown_organism_aborts bacteria_by_name (PyStr EmptyString)
                                   example_labels example_taxa PyNone 20
                                   (or_introl eq_refl)).
Defined.

(** A reaction none of whose candidates is in the dictionary of taxa (a
    cache that does not know them) gets 1000 from the distances that
    [distance_org_taxa] returned. *)
Theorem stale_cache_gives_sentinel (ncbi : directory) (organism : pyval)
        (taxaset : gset string) (taxodic : gmap string Taxon)
        (email : pyval) (penalty_price : Z) (taxdist_dic : gmap string Z)
        (rxndata : gmap string (gset string)) (rxn : string)
        (txns : gset string) :
  distance_org_taxa ncbi organism taxaset taxodic email penalty_price
  = Ok taxdist_dic ->
  rxndata !! rxn = Some txns ->
  (forall txn, txn ∈ txns -> taxodic !! txn = None) ->
  exists all_rxn_dist,
    associate_rxn_dist rxndata taxdist_dic = Ok all_rxn_dist
    /\ all_rxn_dist !! rxn = Some 1000.
Proof.
  intros Hd Hrxn Hnone. unfold distance_org_taxa in Hd.
  apply bind_Ok_inv in Hd as (org & _ & Hd).
  eexists. split; [apply associate_rxn_dist_fmap |].
  rewrite lookup_fmap, Hrxn. cbn. f_equal.
  rewrite resolved_distances_nil; [reflexivity |].
  intros txn Hin.
  rewrite (distance_org_loop_content _ _ _ _ _ Hd txn), (Hnone txn Hin).
  apply lookup_empty.
Qed.

Lemma stale_cache_gives_sentinel_witness :
  exists all_rxn_dist,
    associate_rxn_dist example_rxndata ∅ = Ok all_rxn_dist
    /\ all_rxn_dist !! "RXN-1" = Some 1000.
Proof.
  apply (stale_cache_gives_sentinel
           bacteria_by_name (PyStr "Bacteria") example_candidates ∅
           PyNone 20 ∅ example_rxndata "RXN-1" example_candidates).
  - vm_compute. reflexivity.
  - apply lookup_singleton_eq.
  - intros txn _. apply lookup_empty.
Defined.

(** ** The reactions and their taxonomic ranges *)

(** One turn of the loop of [pathway_info]. *)
Lemma pathway_info_loop_cons (rlt : Relation) (rest : list Relation)
      (padmet : PadmetSpec) (all_taxa : gset string)
      (rxn_in_pwy : gmap string (gset string)) :
  pathway_info_loop (rlt :: rest) padmet all_taxa rxn_in_pwy
  = if String.eqb (rel_type rlt) "is_in_pathway"
    then match dicOfNode padmet !! id_out rlt with
         | None => Raise (Builtin KeyError)
         | Some node =>
             match misc node !! "TAXONOMIC-RANGE" with
             | None => pathway_info_loop rest padmet all_taxa rxn_in_pwy
             | Some range =>
                 pathway_info_loop
                   rest padmet (all_taxa ∪ list_to_set range)
                   (<[id_in rlt :=
                        default ∅ (rxn_in_pwy !! id_in rlt)
                        ∪ list_to_set range]> rxn_in_pwy)
             end
         end
    else pathway_info_loop rest padmet all_taxa rxn_in_pwy.
Proof.
  cbn [pathway_info_loop]. unfold dict_get.
  destruct (String.eqb (rel_type rlt) "is_in_pathway"); [| reflexivity].
  destruct (dicOfNode padmet !! id_out rlt) as [node |]; [| reflexivity].
  cbn [bind].
  destruct (misc node !! "TAXONOMIC-RANGE") as [range |] eqn:E.
  - rewrite bool_decide_eq_true_2 by eauto. cbn [bind].
    destruct (rxn_in_pwy !! id_in rlt) as [old |]; cbn [bind try_except default].
    + reflexivity.
    + now rewrite (left_id_L ∅ (∪)).
  - rewrite bool_decide_eq_false_2 by (intros [? ?]; discriminate).
    reflexivity.
Qed.

Lemma pathway_info_loop_invariant (padmet : PadmetSpec)
      (rels : list Relation) :
  forall (all_taxa0 all_taxa : gset string)
         (rxn_in_pwy0 rxn_in_pwy : gmap string (gset string)),
    pathway_info_loop rels padmet all_taxa0 rxn_in_pwy0
    = Ok (all_taxa, rxn_in_pwy) ->
    (forall label,
        label ∈ all_taxa0
        <-> exists rxn txns, rxn_in_pwy0 !! rxn = Some txns /\ label ∈ txns) ->
    forall label,
      label ∈ all_taxa
      <-> exists rxn txns, rxn_in_pwy !! rxn = Some txns /\ label ∈ txns.
Proof.
  induction rels as [| rlt rest IH]; intros A0 A R0 R Hloop Hinv.
  - cbn in Hloop. injection Hloop as <- <-. exact Hinv.
  - rewrite pathway_info_loop_cons in Hloop.
    destruct (String.eqb (rel_type rlt) "is_in_pathway");
      [| exact (IH _ _ _ _ Hloop Hinv)].
    destruct (dicOfNode padmet !! id_out rlt) as [node |]; [| discriminate].
    destruct (misc node !! "TAXONOMIC-RANGE") as [range |];
      [| exact (IH _ _ _ _ Hloop Hinv)].
    apply (IH _ _ _ _ Hloop). intros label.
    rewrite elem_of_union, Hinv. split.
    + intros [(rxn & txns & Hr & Hin) | Hin].
      * destruct (decide (rxn = id_in rlt)) as [-> | Hne].
        -- eexists _, _. rewrite lookup_insert_eq. split; [reflexivity |].
           rewrite Hr. cbn. apply elem_of_union. now left.
        -- exists rxn, txns. now rewrite lookup_insert_ne by congruence.
      * eexists _, _. rewrite lookup_insert_eq. split; [reflexivity |].
        apply elem_of_union. now right.
    + intros (rxn & txns & Hr & Hin).
      destruct (decide (rxn = id_in rlt)) as [-> | Hne].
      * rewrite lookup_insert_eq in Hr. injection Hr as <-.
        apply elem_of_union in Hin as [Hin | Hin]; [| now right].
        left. destruct (R0 !! id_in rlt) as [old |] eqn:E; cbn in Hin.
        -- eauto.
        -- now apply not_elem_of_empty in Hin.
      * rewrite lookup_insert_ne in Hr by congruence. left. eauto.
Qed.

Lemma call_Ok_inv {A : Type} (r : lib_exn + A) (a : A) :
  call r = Ok a -> r = inr a.
Proof. destruct r; cbn; congruence. Qed.

(** The set of taxa that [pathway_info] returns is the union of the sets
    it returns for the reactions. *)
Theorem all_taxa_is_union_of_reactions
        (PadmetSpec_of : string -> lib_exn + PadmetSpec) (metacycdb : string)
        (all_taxa : gset string) (rxn_in_pwy : gmap string (gset string)) :
  pathway_info PadmetSpec_of metacycdb = Ok (all_taxa, rxn_in_pwy) ->
  forall label,
    label ∈ all_taxa
    <-> exists rxn txns, rxn_in_pwy !! rxn = Some txns /\ label ∈ txns.
Proof.
  intros H. unfold pathway_info in H.
  apply bind_Ok_inv in H as (padmet & _ & H).
  apply (pathway_info_loop_invariant _ _ _ _ _ _ H).
  intros label. split.
  - intros Hin. now apply not_elem_of_empty in Hin.
  - intros (rxn & txns & Hr & _). rewrite lookup_empty in Hr. discriminate.
Qed.

Lemma example_padmet_info :
  pathway_info example_PadmetSpec_of "metacyc.padmet"
  = Ok (example_labels, example_rxn_in_pwy).
Proof. vm_compute. reflexivity. Qed.

Lemma all_taxa_is_union_of_reactions_witness :
  pathway_info example_PadmetSpec_of "metacyc.padmet"
  = Ok (example_labels, example_rxn_in_pwy)
  /\ ("TAX-0" ∈ example_labels
      <-> exists rxn txns,
          example_rxn_in_pwy !! rxn = Some txns /\ "TAX-0" ∈ txns).
Proof.
  split; [exact example_padmet_info |].
  exact (all_taxa_is_union_of_reactions
           example_PadmetSpec_of "metacyc.padmet" example_labels
           example_rxn_in_pwy example_padmet_info "TAX-0").
Defined.

Lemma pathway_info_loop_candidates (padmet : PadmetSpec)
      (rels : list Relation) :
  forall (all_taxa0 all_taxa : gset string)
         (rxn_in_pwy0 rxn_in_pwy : gmap string (gset string)),
    pathway_info_loop rels padmet all_taxa0 rxn_in_pwy0
    = Ok (all_taxa, rxn_in_pwy) ->
    (forall rxn,
        is_Some (rxn_in_pwy !! rxn)
        <-> is_Some (rxn_in_pwy0 !! rxn)
            \/ exists rlt range,
                rlt ∈ rels /\ id_in rlt = rxn
                /\ declares_range padmet rlt range)
    /\ (forall rxn label,
           (exists txns, rxn_in_pwy !! rxn = Some txns /\ label ∈ txns)
           <-> (exists txns, rxn_in_pwy0 !! rxn = Some txns /\ label ∈ txns)
               \/ exists rlt range,
                   rlt ∈ rels /\ id_in rlt = rxn
                   /\ declares_range padmet rlt range /\ label ∈ range).
Proof.
  induction rels as [| rlt rest IH]; intros A0 A R0 R Hloop.
  - cbn in Hloop. injection Hloop as <- <-. split.
    + intros rxn. split; [now left |].
      intros [H | (rlt & _ & Hin & _)]; [exact H | inversion Hin].
    + intros rxn label. split; [now left |].
      intros [H | (rlt & _ & Hin & _)]; [exact H | inversion Hin].
  - rewrite pathway_info_loop_cons in Hloop.
    assert (Hskip :
              pathway_info_loop rest padmet A0 R0 = Ok (A, R) ->
              (forall range, ~ declares_range padmet rlt range) ->
              (forall rxn,
                  is_Some (R !! rxn)
                  <-> is_Some (R0 !! rxn)
                      \/ exists rlt0 range,
                          rlt0 ∈ rlt :: rest /\ id_in rlt0 = rxn
                          /\ declares_range padmet rlt0 range)
              /\ (forall rxn label,
                     (exists txns, R !! rxn = Some txns /\ label ∈ txns)
                     <-> (exists txns, R0 !! rxn = Some txns /\ label ∈ txns)
                         \/ exists rlt0 range,
                             rlt0 ∈ rlt :: rest /\ id_in rlt0 = rxn
                             /\ declares_range padmet rlt0 range
                             /\ label ∈ range)).
    { intros Hl Hno. destruct (IH _ _ _ _ Hl) as [IH1 IH2]. split.
      - intros rxn. rewrite IH1. split.
        + intros [H | (r & range & Hin & Hr & Hd)]; [now left |].
          right. exists r, range. split; [now right | tauto].
        + intros [H | (r & range & Hin & Hr & Hd)]; [now left |].
          apply elem_of_cons in Hin as [-> | Hin];
            [exfalso; apply (Hno range Hd) |].
          right. eauto.
      - intros rxn label. rewrite IH2. split.
        + intros [H | (r & range & Hin & Hr & Hd & Hl')]; [now left |].
          right. exists r, range. split; [now right | tauto].
        + intros [H | (r & range & Hin & Hr & Hd & Hl')]; [now left |].
          apply elem_of_cons in Hin as [-> | Hin];
            [exfalso; apply (Hno range Hd) |].
          right. exists r, range. tauto. }
    destruct (String.eqb (rel_type rlt) "is_in_pathway") eqn:Etype.
    2:{ apply (Hskip Hloop). intros range [Ht _].
        apply String.eqb_neq in Etype. contradiction. }
    apply String.eqb_eq in Etype.
    destruct (dicOfNode padmet !! id_out rlt) as [node |] eqn:Enode;
      [| discriminate].
    destruct (misc node !! "TAXONOMIC-RANGE") as [range |] eqn:Erange.
    2:{ apply (Hskip Hloop). intros range (_ & n & Hn & Hr).
        rewrite Enode in Hn. injection Hn as <-. congruence. }
    assert (Hdecl : declares_range padmet rlt range)
      by (split; [exact Etype | eauto]).
    assert (Hfun : forall range', declares_range padmet rlt range' ->
                                  range' = range).
    { intros range' (_ & n & Hn & Hr). rewrite Enode in Hn.
      injection Hn as <-. congruence. }
    destruct (IH _ _ _ _ Hloop) as [IH1 IH2]. split.
    + intros rxn. rewrite IH1. split.
      * intros [H | (r & rg & Hin & Hr & Hd)].
        -- destruct (decide (rxn = id_in rlt)) as [-> | Hne].
           ++ right. exists rlt, range. split; [left | tauto].
           ++ rewrite lookup_insert_ne in H by congruence. now left.
        -- right. exists r, rg. split; [now right | tauto].
      * intros [H | (r & rg & Hin & Hr & Hd)].
        -- left. destruct (decide (rxn = id_in rlt)) as [-> | Hne].
           ++ rewrite lookup_insert_eq. eauto.
           ++ now rewrite lookup_insert_ne by congruence.
        -- apply elem_of_cons in Hin as [-> | Hin].
           ++ left. rewrite <- Hr, lookup_insert_eq. eauto.
           ++ right. eauto.
    + intros rxn label. rewrite IH2. split.
      * intros [(txns & Ht & Hl) | (r & rg & Hin & Hr & Hd & Hl)].
        -- destruct (decide (rxn = id_in rlt)) as [-> | Hne].
           ++ rewrite lookup_insert_eq in Ht. injection Ht as <-.
              apply elem_of_union in Hl as [Hl | Hl].
              ** left. destruct (R0 !! id_in rlt) as [old |]; cbn in Hl;
                   [eauto | now apply not_elem_of_empty in Hl].
              ** right. exists rlt, range.
                 split; [left |]. split; [reflexivity |].
                 split; [exact Hdecl |]. now apply elem_of_list_to_set in Hl.
           ++ rewrite lookup_insert_ne in Ht by congruence. left. eauto.
        -- right. exists r, rg. split; [now right | tauto].
      * intros [(txns & Ht & Hl) | (r & rg & Hin & Hr & Hd & Hl)].
        -- left. destruct (decide (rxn = id_in rlt)) as [-> | Hne].
           ++ eexists. rewrite lookup_insert_eq. split; [reflexivity |].
              rewrite Ht. cbn. apply elem_of_union. now left.
           ++ exists txns. now rewrite lookup_insert_ne by congruence.
        -- apply elem_of_cons in Hin as [-> | Hin].
           ++ left. rewrite (Hfun rg Hd) in Hl.
              eexists. rewrite <- Hr, lookup_insert_eq.
              split; [reflexivity |].
              apply elem_of_union. right. now apply elem_of_list_to_set.
           ++ right. exists r, rg. tauto.
Qed.

(** A reaction is a key of the dictionary returned exactly when a relation
    of the database loaded places it in a pathway that declares a taxonomic
    range, and a label is among its candidates exactly when it is in the
    range of such a pathway: relations of other types and pathways without
    range leave no trace. *)
Theorem reactions_collect_ranges
        (PadmetSpec_of : string -> lib_exn + PadmetSpec) (metacycdb : string)
        (all_taxa : gset string) (rxn_in_pwy : gmap string (gset string)) :
  pathway_info PadmetSpec_of metacycdb = Ok (all_taxa, rxn_in_pwy) ->
  exists padmet,
    PadmetSpec_of metacycdb = inr padmet
    /\ (forall rxn,
           is_Some (rxn_in_pwy !! rxn)
           <-> exists rlt range,
               rlt ∈ getAllRelation padmet /\ id_in rlt = rxn
               /\ declares_range padmet rlt range)
    /\ (forall rxn label,
           (exists txns, rxn_in_pwy !! rxn = Some txns /\ label ∈ txns)
           <-> exists rlt range,
               rlt ∈ getAllRelation padmet /\ id_in rlt = rxn
               /\ declares_range padmet rlt range /\ label ∈ range).
Proof.
  intros H. unfold pathway_info in H.
  apply bind_Ok_inv in H as (padmet & Hload & H).
  exists padmet. split; [now apply call_Ok_inv |].
  destruct (pathway_info_loop_candidates _ _ _ _ _ _ H) as [H1 H2].
  split.
  - intros rxn. rewrite H1. split; [| now right].
    intros [[x Hx] | Hr]; [| exact Hr].
    rewrite lookup_empty in Hx. discriminate.
  - intros rxn label. rewrite H2. split; [| now right].
    intros [(txns & Ht & _) | Hr]; [| exact Hr].
    rewrite lookup_empty in Ht. discriminate.
Qed.

Lemma reactions_collect_ranges_witness :
  exists padmet,
    example_PadmetSpec_of "metacyc.padmet" = inr padmet
    /\ (forall rxn,
           is_Some (example_rxn_in_pwy !! rxn)
           <-> exists rlt range,
               rlt ∈ getAllRelation padmet /\ id_in rlt = rxn
               /\ declares_range padmet rlt range)
    /\ (forall rxn label,
           (exists txns, example_rxn_in_pwy !! rxn = Some txns /\ label ∈ txns)
           <-> exists rlt range,
               rlt ∈ getAllRelation padmet /\ id_in rlt = rxn
               /\ declares_range padmet rlt range /\ label ∈ range).
Proof.
  exact (reactions_collect_ranges example_PadmetSpec_of "metacyc.padmet"
                                  example_labels example_rxn_in_pwy
                                  example_padmet_info).
Defined.

Lemma pathway_info_loop_raises (padmet : PadmetSpec) (rels : list Relation) :
  forall (all_taxa : gset string) (rxn_in_pwy : gmap string (gset string)),
    match pathway_info_loop rels padmet all_taxa rxn_in_pwy with
    | Ok _ =>
        forall rlt,
          rlt ∈ rels -> rel_type rlt = "is_in_pathway" ->
          is_Some (dicOfNode padmet !! id_out rlt)
    | Raise e =>
        e = Builtin KeyError
        /\ exists rlt,
            rlt ∈ rels /\ rel_type rlt = "is_in_pathway"
            /\ dicOfNode padmet !! id_out rlt = None
    end.
Proof.
  induction rels as [| rlt rest IH]; intros A R.
  - cbn. intros rlt Hin. inversion Hin.
  - rewrite pathway_info_loop_cons.
    assert (Hnext : forall A' R',
               (rel_type rlt = "is_in_pathway" ->
                is_Some (dicOfNode padmet !! id_out rlt)) ->
               match pathway_info_loop rest padmet A' R' with
               | Ok _ =>
                   forall r, r ∈ rlt :: rest ->
                             rel_type r = "is_in_pathway" ->
                             is_Some (dicOfNode padmet !! id_out r)
               | Raise e =>
                   e = Builtin KeyError
                   /\ exists r,
                       r ∈ rlt :: rest /\ rel_type r = "is_in_pathway"
                       /\ dicOfNode padmet !! id_out r = None
               end).
    { intros A' R' Hhead. specialize (IH A' R').
      destruct (pathway_info_loop rest padmet A' R') as [[? ?] | e].
      - intros r Hin. apply elem_of_cons in Hin as [-> | Hin];
          [exact Hhead | now apply IH].
      - destruct IH as (-> & r & Hin & Ht & Hn). split; [reflexivity |].
        exists r. split; [now right | tauto]. }
    destruct (String.eqb (rel_type rlt) "is_in_pathway") eqn:Etype.
    + destruct (dicOfNode padmet !! id_out rlt) as [node |] eqn:Enode.
      * destruct (misc node !! "TAXONOMIC-RANGE"); apply Hnext; eauto.
      * split; [reflexivity |]. exists rlt. split; [left |].
        split; [now apply String.eqb_eq | exact Enode].
    + apply Hnext. intros Ht. apply String.eqb_neq in Etype. contradiction.
Qed.

(** [pathway_info] raises in two ways and no other: the exception that
    loading the file raised, as it is; or, the file loaded, [KeyError],
    exactly when a relation of type ["is_in_pathway"] points to a pathway
    that has no node.  When it returns, the file was loaded and every such
    relation has its node. *)
Theorem pathway_info_raises_on_missing_node
        (PadmetSpec_of : string -> lib_exn + PadmetSpec)
        (metacycdb : string) :
  match pathway_info PadmetSpec_of metacycdb with
  | Ok _ =>
      exists padmet,
        PadmetSpec_of metacycdb = inr padmet
        /\ forall rlt,
            rlt ∈ getAllRelation padmet -> rel_type rlt = "is_in_pathway" ->
            is_Some (dicOfNode padmet !! id_out rlt)
  | Raise e =>
      (exists e', PadmetSpec_of metacycdb = inl e' /\ e = Builtin e')
      \/ (exists padmet,
             PadmetSpec_of metacycdb = inr padmet
             /\ e = Builtin KeyError
             /\ exists rlt,
                 rlt ∈ getAllRelation padmet
                 /\ rel_type rlt = "is_in_pathway"
                 /\ dicOfNode padmet !! id_out rlt = None)
  end.
Proof.
  unfold pathway_info.
  destruct (PadmetSpec_of metacycdb) as [e' | padmet]; cbn [call bind].
  - left. eauto.
  - pose proof (pathway_info_loop_raises padmet (getAllRelation padmet) ∅ ∅)
      as H.
    destruct (pathway_info_loop (getAllRelation padmet) padmet ∅ ∅)
      as [[? ?] | e].
    + exists padmet. split; [reflexivity | exact H].
    + right. exists padmet. split; [reflexivity | exact H].
Qed.

Lemma pathway_info_raises_on_missing_node_witness :
  pathway_info example_PadmetSpec_of "broken.padmet"
  = Raise (Builtin KeyError)
  /\ pathway_info example_PadmetSpec_of "missing.padmet"
     = Raise (Builtin FileNotFoundError)
  /\ ((exists e',
          example_PadmetSpec_of "broken.padmet" = inl e'
          /\ Builtin KeyError = Builtin e')
      \/ (exists padmet,
             example_PadmetSpec_of "broken.padmet" = inr padmet
             /\ Builtin KeyError = Builtin KeyError
             /\ exists rlt,
                 rlt ∈ getAllRelation padmet
                 /\ rel_type rlt = "is_in_pathway"
                 /\ dicOfNode padmet !! id_out rlt = None)).
Proof.
  pose proof (pathway_info_raises_on_missing_node example_PadmetSpec_of
                                                  "broken.padmet") as H.
  assert (E : pathway_info example_PadmetSpec_of "broken.padmet"
              = Raise (Builtin KeyError)) by (vm_compute; reflexivity).
  rewrite E in H. split; [exact E |]. split; [reflexivity | exact H].
Defined.
